(** * NGX stock oracle keeper: update decision, batching and bookkeeping

    A shallow embedding of the keeper's core (keeper/ngx_oracle_keeper.py,
    keeper/blockchain_interface.py, keeper/ngx_fetcher.py) and the properties
    of its change filter, batcher, gas gate and submission loop.

    Conventions.
    - Python [float] is IEEE 754 binary64: prices and the change threshold are
      Rocq primitive floats, whose operations are the same binary64 operations
      rounded to nearest even.
    - Python [int] is unbounded: counters, gas amounts and wei amounts are [Z].
    - [Decimal] quantities returned by web3's [from_wei] are exact: [Q].
    - A [dict] is a [gmap]; [self.last_prices] is a [gmap string float].
    - A [try]/[except] region is a computation in the [exc] monad. *)

From Stdlib Require Import ZArith QArith Floats Lia List Ascii String.
From stdpp Require Import gmap strings list.

Local Open Scope Z_scope.

(** ** Python exceptions *)

Inductive PyExc : Set :=
  | ZeroDivisionError
  | ValueError
  | OverflowError
  | RpcError.        (* any exception raised by web3 / the transport *)

Inductive exc (A : Type) : Type :=
  | Ok (a : A)
  | Raise (e : PyExc).
Arguments Ok {A} a.
Arguments Raise {A} e.

#[global] Instance exc_ret : MRet exc := fun _ a => Ok a.
#[global] Instance exc_bind : MBind exc := fun _ _ f m =>
  match m with
  | Ok a => f a
  | Raise e => Raise e
  end.

Definition raised {A} (m : exc A) : bool :=
  match m with Ok _ => false | Raise _ => true end.

(** [[f(x) for x in xs]] where [f] may raise: the first exception wins. *)
Fixpoint exc_map {A B} (f : A -> exc B) (xs : list A) : exc (list B) :=
  match xs with
  | [] => Ok []
  | x :: xs' => y ← f x; ys ← exc_map f xs'; Ok (y :: ys)
  end.

(** ** Python built-ins used by the keeper *)

(** [x / y] on floats: raises ZeroDivisionError when the divisor compares
    equal to zero (either sign), otherwise IEEE division. *)
Definition py_truediv (x y : float) : exc float :=
  if (y =? 0)%float then Raise ZeroDivisionError else Ok (x / y)%float.

(** [a / b] on ints, for its exceptions only (the quotient is logged and
    dropped): ZeroDivisionError, and OverflowError when the correctly rounded
    quotient is beyond the largest binary64 number. *)
Definition py_int_truediv_check (a b : Z) : exc unit :=
  if b =? 0 then Raise ZeroDivisionError
  else if (2 ^ 1024 - 2 ^ 970) * Z.abs b <=? Z.abs a then Raise OverflowError
  else Ok tt.

(** [len(range(start, stop, step))] as CPython computes it, and the values
    [start + k*step].  [step = 0] raises ValueError in Python; the keeper
    never gets there with a zero step (see [update_prices]). *)
Definition py_range_len (start stop step : Z) : nat :=
  if 0 <? step then Z.to_nat ((stop - start + step - 1) / step)
  else if step <? 0 then Z.to_nat ((start - stop - step - 1) / (- step))
  else 0%nat.

Definition py_range (start stop step : Z) : list Z :=
  map (fun k => start + Z.of_nat k * step) (seq 0 (py_range_len start stop step)).

(** Slice bound normalisation of [l[i:j]]: a negative bound counts from the
    end, and every bound is clamped to [0 .. len(l)]. *)
Definition py_slice_index (len i : Z) : nat :=
  Z.to_nat (if i <? 0 then Z.max 0 (i + len) else Z.min i len).

Definition py_slice {A} (l : list A) (i j : Z) : list A :=
  let len := Z.of_nat (length l) in
  let lo := py_slice_index len i in
  let hi := py_slice_index len j in
  take (hi - lo) (drop lo l).

(** ** Data *)

(** One entry of [all_stocks]; the keeper reads ['symbol'] and ['price']. *)
Record Stock : Set := {
  symbol : string;
  price : float;
  change : float
}.

(** keeper/config.py, the settings the update cycle reads. *)
Record Config : Set := {
  MIN_PRICE_CHANGE_PERCENT : float;
  BATCH_SIZE : Z;
  MAX_GAS_PRICE_GWEI : Z
}.

(** [self.stats] (['start_time'] is written once, at construction). *)
Record Stats : Set := {
  total_updates : Z;
  successful_updates : Z;
  failed_updates : Z;
  total_stocks_updated : Z
}.

(** The mutable state of [NGXOracleKeeper]. *)
Record Keeper : Type := {
  last_prices : gmap string float;
  stats : Stats
}.

(** ** ChangeFilter: [NGXOracleKeeper.should_update_price] *)

Section ChangeFilter.
(** The float division of line 111 is taken as an operation that may raise,
    so that a statement can say that a path does not execute it. *)
Variable truediv : float -> float -> exc float.

Definition should_update_price_with
    (prices : gmap string float) (min_change : float)
    (sym : string) (new_price : float) : exc bool :=
  match prices !! sym with
  | None => Ok true
  | Some old_price =>
      if (old_price =? 0)%float then Ok true
      else
        q ← truediv (new_price - old_price)%float old_price;
        let price_change_pct := abs (q * 100)%float in
        if (min_change <=? price_change_pct)%float then Ok true
        else Ok false
  end.

(** Step 2 of [update_prices]: the loop that fills [stocks_to_update]. *)
Fixpoint filter_stocks_with
    (prices : gmap string float) (min_change : float)
    (all_stocks : list Stock) : exc (list (string * float)) :=
  match all_stocks with
  | [] => Ok []
  | stock :: rest =>
      b ← should_update_price_with prices min_change (symbol stock) (price stock);
      tl ← filter_stocks_with prices min_change rest;
      Ok (if b : bool then (symbol stock, price stock) :: tl else tl)
  end.
End ChangeFilter.

Definition should_update_price := should_update_price_with py_truediv.
Definition filter_stocks := filter_stocks_with py_truediv.

(** The ChangeFilter of the specification, in its own words: an unseen symbol
    and a zero old price give a [NEW] candidate, otherwise
    [pct = |price - old| / old * 100] and a [CHANGED] candidate when
    [pct >= min_change_percent]. *)
Inductive Reason : Set := NEW | CHANGED.

Definition spec_pct (new_price old_price : float) : float :=
  (abs (new_price - old_price) / old_price * 100)%float.

Definition spec_change_filter
    (memory : gmap string float) (min_change_percent : float)
    (sym : string) (new_price : float) : option Reason :=
  match memory !! sym with
  | None => Some NEW
  | Some old =>
      if (old =? 0)%float then Some NEW
      else if (min_change_percent <=? spec_pct new_price old)%float
           then Some CHANGED
           else None
  end.

(** ** Chain client: [OracleContract] (keeper/blockchain_interface.py) *)

Record Receipt : Set := {
  status : Z;
  gasUsed : Z;
  blockNumber : Z
}.

(** The transaction handed to [_send_transaction]: the call arguments of
    [updatePrices] and the fields the keeper sets in [build_transaction]. *)
Record Tx : Set := {
  tx_symbols : list string;
  tx_prices_wei : list Z;
  tx_nonce : Z;
  tx_gas : Z;
  tx_gasPrice : Z
}.

(** What web3 and the node answer during one call of [batch_update_prices].
    Every remote operation either returns or raises. *)
Record Web3 : Type := {
  to_wei_ether : float -> exc Z;            (* w3.to_wei(p, 'ether') *)
  eth_gas_price : nat -> exc Z;             (* k-th read of w3.eth.gas_price *)
  get_transaction_count : exc Z;            (* w3.eth.get_transaction_count *)
  encode_call : list string -> list Z -> exc unit;  (* ABI encoding in build_transaction *)
  send_and_wait : Tx -> exc Receipt         (* sign, send_raw_transaction, wait_for_transaction_receipt *)
}.

Definition gwei : Z := 10 ^ 9.
Definition ether : Z := 10 ^ 18.
Definition MAX_WEI : Z := 2 ^ 256 - 1.

(** web3's [from_wei]: exact decimal division by the unit. *)
Definition from_wei (number unit_value : Z) : exc Q :=
  if number =? 0 then Ok (inject_Z 0)
  else if (number <? 0) || (MAX_WEI <? number) then Raise ValueError
  else Ok (inject_Z number / inject_Z unit_value)%Q.

(** GasGate: [current_gas > max_gas_price_gwei]. *)
Definition gas_too_high (current_gas : Q) (max_gas_price_gwei : Z) : bool :=
  negb (Qle_bool current_gas (inject_Z max_gas_price_gwei)).

Definition _send_transaction (w3 : Web3) (transaction : Tx) : option Receipt :=
  match send_and_wait w3 transaction with
  | Ok receipt => if status receipt =? 1 then Some receipt else None
  | Raise _ => None
  end.

(** The gas model of [batch_update_prices] (lines 194-200). *)
Definition base_gas : Z := 200000.
Definition gas_per_stock : Z := 150000.
Definition max_gas : Z := 8000000.

Definition gas_estimate (n_symbols : nat) : Z :=
  Z.min (base_gas + Z.of_nat n_symbols * gas_per_stock) max_gas.

(** [batch_update_prices]: the transactions handed to the node, and the value
    returned to the caller ([None] or the receipt).  The body of the [try] is
    cut where its effects differ; every segment that raises ends in the
    [except] clause, which returns [None].  The last segment is the cost
    report after a mined transaction: it reads the gas price once more and
    divides [gas_used] by the estimate. *)
Definition batch_update_prices (w3 : Web3)
    (symbol_price_pairs : list (string * float)) (max_gas_price_gwei : Z)
    : list Tx * option Receipt :=
  match symbol_price_pairs with
  | [] => ([], None)
  | _ :: _ =>
      let symbols := map fst symbol_price_pairs in
      let prices_ngn := map snd symbol_price_pairs in
      match (prices_wei ← exc_map (to_wei_ether w3) prices_ngn;
             gp ← eth_gas_price w3 0;
             current_gas ← from_wei gp gwei;
             Ok (prices_wei, current_gas)) with
      | Raise _ => ([], None)
      | Ok (prices_wei, current_gas) =>
          if gas_too_high current_gas max_gas_price_gwei then ([], None)
          else
            match (nonce ← get_transaction_count w3;
                   _ ← encode_call w3 symbols prices_wei;
                   gp ← eth_gas_price w3 1;
                   Ok {| tx_symbols := symbols;
                         tx_prices_wei := prices_wei;
                         tx_nonce := nonce;
                         tx_gas := gas_estimate (length symbols);
                         tx_gasPrice := gp |}) with
            | Raise _ => ([], None)
            | Ok tx =>
                let receipt := _send_transaction w3 tx in
                ([tx],
                 match receipt with
                 | Some r =>
                     if status r =? 1 then
                       match (gp ← eth_gas_price w3 2;
                              _ ← from_wei (gasUsed r * gp) ether;
                              py_int_truediv_check (gasUsed r) (tx_gas tx)) with
                       | Ok _ => Some r
                       | Raise _ => None
                       end
                     else Some r
                 | None => None
                 end)
            end
      end
  end.

(** ** SubmissionCoordinator: [NGXOracleKeeper.update_prices] *)

(** One call of [self.contract.batch_update_prices] as seen from the keeper. *)
Record ChainCall : Type := {
  call_batch : list (string * float);
  call_sent : list Tx;
  call_result : option Receipt
}.

(** [for symbol, price in batch: self.last_prices[symbol] = price] *)
Definition store_prices (prices : gmap string float)
    (batch : list (string * float)) : gmap string float :=
  foldl (fun m sp => <[sp.1 := sp.2]> m) prices batch.

(** [self.stats['failed_updates'] += 1] *)
Definition count_failure (k : Keeper) : Keeper :=
  {| last_prices := last_prices k;
     stats := {| total_updates := total_updates (stats k);
                 successful_updates := successful_updates (stats k);
                 failed_updates := failed_updates (stats k) + 1;
                 total_stocks_updated := total_stocks_updated (stats k) |} |}.

(** The [if receipt: ... else: ...] of lines 177-186. *)
Definition record_result (k : Keeper) (batch : list (string * float))
    (receipt : option Receipt) : Keeper :=
  match receipt with
  | Some _ =>
      {| last_prices := store_prices (last_prices k) batch;
         stats := {| total_updates := total_updates (stats k);
                     successful_updates := successful_updates (stats k) + 1;
                     failed_updates := failed_updates (stats k);
                     total_stocks_updated :=
                       total_stocks_updated (stats k) + Z.of_nat (length batch) |} |}
  | None => count_failure k
  end.

(** The body of the [for i in range(0, len(stocks_to_update), batch_size)]
    loop, run over the values of [i].  [chain n] is what the chain answers
    during the [n]-th call of the cycle. *)
Fixpoint submit_loop (cfg : Config) (chain : nat -> Web3)
    (stocks_to_update : list (string * float)) (n : nat)
    (indices : list Z) (k : Keeper) : Keeper * list ChainCall :=
  match indices with
  | [] => (k, [])
  | i :: rest =>
      let batch := py_slice stocks_to_update i (i + BATCH_SIZE cfg) in
      let '(sent, receipt) :=
        batch_update_prices (chain n) batch (MAX_GAS_PRICE_GWEI cfg) in
      let k' := record_result k batch receipt in
      let '(k'', calls) := submit_loop cfg chain stocks_to_update (S n) rest k' in
      (k'', {| call_batch := batch; call_sent := sent; call_result := receipt |}
              :: calls)
  end.

(** The batches of a cycle: the successive values of [batch] in the loop. *)
Definition batches_of (stocks_to_update : list (string * float))
    (batch_size : Z) : list (list (string * float)) :=
  map (fun i => py_slice stocks_to_update i (i + batch_size))
      (py_range 0 (Z.of_nat (length stocks_to_update)) batch_size).

(** The [except Exception] clause of [update_prices]. *)
Definition cycle_failed (k : Keeper) : Keeper * bool * list ChainCall :=
  (count_failure k, false, []).

(** Step 1 of [update_prices]: the scraped list, or the mock quotes when the
    scraper returned nothing. *)
Definition fetched_stocks (scraped mock : list Stock) : list Stock :=
  match scraped with
  | [] => mock
  | _ :: _ => scraped
  end.

(** [update_prices].  [scraped] is what [fetch_ngx_data] returned and [mock]
    what the mock source returns for the five fallback symbols.  The result is
    the keeper afterwards, the returned boolean and the calls made to the
    chain client, in order. *)
Definition update_prices (cfg : Config) (chain : nat -> Web3)
    (scraped mock : list Stock) (k : Keeper) : Keeper * bool * list ChainCall :=
  let all_stocks := fetched_stocks scraped mock in
  match filter_stocks (last_prices k) (MIN_PRICE_CHANGE_PERCENT cfg) all_stocks with
  | Raise _ => cycle_failed k
  | Ok [] => (k, true, [])
  | Ok ((_ :: _) as stocks_to_update) =>
      let batch_size := BATCH_SIZE cfg in
      if batch_size =? 0 then cycle_failed k   (* line 161 divides by zero *)
      else
        let '(k', calls) :=
          submit_loop cfg chain stocks_to_update 0
            (py_range 0 (Z.of_nat (length stocks_to_update)) batch_size) k in
        ({| last_prices := last_prices k';
            stats := {| total_updates := total_updates (stats k') + 1;
                        successful_updates := successful_updates (stats k');
                        failed_updates := failed_updates (stats k');
                        total_stocks_updated := total_stocks_updated (stats k') |} |},
         true, calls)
  end.

(** ** Price source: [NGXDataParser.parse_ngx_string] (keeper/ngx_fetcher.py) *)

(** [s.replace(',', '')] *)
Fixpoint remove_commas (s : string) : string :=
  match s with
  | EmptyString => EmptyString
  | String c s' =>
      if Ascii.eqb c ","%char then remove_commas s' else String c (remove_commas s')
  end.

Section Parser.
(** Python library functions: [re.findall] with the three-group pattern of
    line 43, and [float] on a string ([None] is ValueError). *)
Variable re_findall : string -> list (string * string * string).
Variable py_float : string -> option float.

Definition parse_match (m : string * string * string) : option Stock :=
  let '(sym, g1, g2) := m in
  let price_str := remove_commas g1 in
  let change_str := g2 in
  match py_float price_str with
  | None => None
  | Some p =>
      match (if String.eqb change_str "" then Some 0%float
             else py_float change_str) with
      | None => None
      | Some c =>
          if (50000 <? p)%float then None
          else Some {| symbol := sym; price := p; change := c |}
      end
  end.

Fixpoint parse_matches (matches : list (string * string * string)) : list Stock :=
  match matches with
  | [] => []
  | m :: rest =>
      match parse_match m with
      | Some stock => stock :: parse_matches rest
      | None => parse_matches rest
      end
  end.

Definition parse_ngx_string (data_string : string) : list Stock :=
  parse_matches (re_findall data_string).
End Parser.

(** ** Price source: [extract_from_html] and [NGXWebsiteScraper] *)

(** What [requests] returns for a page: [response.status_code] and
    [response.text]. *)
Record HttpResponse : Set := {
  status_code : Z;
  text : string
}.

Definition URLS_TO_TRY : list string :=
  ["https://ngxgroup.com/exchange/data/";
   "https://ngxgroup.com/exchange/data/equities-price-list/";
   "https://ngxgroup.com/exchange/data/data-library/"]%string.

(** A [str] is held as its UTF-8 bytes.  A character starts at every byte
    that is not a continuation byte (10xxxxxx), and a position in the string
    is held as the byte offset of the character that starts there. *)
Definition is_continuation_byte (c : ascii) : bool :=
  match c with
  | Ascii _ _ _ _ _ _ b6 b7 => b7 && negb b6
  end.

(** The first [n] characters of [s], [s] starting at a character. *)
Fixpoint take_chars (n : nat) (s : string) : string :=
  match s with
  | EmptyString => EmptyString
  | String c s' =>
      if is_continuation_byte c then String c (take_chars n s')
      else match n with
           | O => EmptyString
           | S n' => String c (take_chars n' s')
           end
  end.

Fixpoint skip_bytes (n : nat) (s : string) : string :=
  match n, s with
  | S n', String _ s' => skip_bytes n' s'
  | _, _ => s
  end.

(** [s[start:start + count]] for a position [start] of [s]. *)
Definition str_slice_from (s : string) (start count : nat) : string :=
  take_chars count (skip_bytes start s).

(** [needle in s] and [s.find(needle)] ([None] is [-1]): the position of the
    first occurrence. *)
Definition str_find (needle s : string) : option nat := String.index 0 needle s.

Definition str_contains (needle s : string) : bool :=
  match str_find needle s with
  | Some _ => true
  | None => false
  end.

Section Scraper.
Variable re_findall : string -> list (string * string * string).
Variable py_float : string -> option float.
(** [BeautifulSoup(html, 'html.parser').get_text()], [session.get(url)] and
    [str.upper]. *)
Variable soup_get_text : string -> string.
Variable session_get : string -> exc HttpResponse.
Variable str_upper : string -> string.

Definition extract_from_html (html_content : string) : list Stock :=
  let text := soup_get_text html_content in
  if str_contains "DELAYED DATA" text then
    match str_find "DELAYED DATA:" text with
    | Some start_idx =>
        let data_section := str_slice_from text start_idx (Z.to_nat 10000) in
        parse_ngx_string re_findall py_float data_section
    | None => parse_ngx_string re_findall py_float text
    end
  else parse_ngx_string re_findall py_float text.

(** The loop of [fetch_ngx_data] over the URLs still to try. *)
Fixpoint fetch_from (urls : list string) : list Stock :=
  match urls with
  | [] => []
  | url :: rest =>
      match session_get url with
      | Raise _ => fetch_from rest
      | Ok response =>
          if status_code response =? 200 then
            match extract_from_html (text response) with
            | [] => fetch_from rest
            | (_ :: _) as stocks => stocks
            end
          else fetch_from rest
      end
  end.

Definition fetch_ngx_data : list Stock := fetch_from URLS_TO_TRY.

(** What one URL contributes to [fetch_ngx_data]: the stocks of its page, or
    nothing when the request raises, the status is not 200 or no stock is
    found. *)
Definition page_stocks (url : string) : list Stock :=
  match session_get url with
  | Ok response =>
      if status_code response =? 200 then extract_from_html (text response) else []
  | Raise _ => []
  end.

(** The loop of [NGXWebsiteScraper.get_stock_price] over [all_stocks]. *)
Fixpoint first_match (all_stocks : list Stock) (sym : string) : option Stock :=
  match all_stocks with
  | [] => None
  | stock :: rest =>
      if String.eqb (str_upper (symbol stock)) (str_upper sym) then Some stock
      else first_match rest sym
  end.

Definition scraper_get_stock_price (sym : string) : option Stock :=
  first_match fetch_ngx_data sym.

(** [{s['symbol'].upper(): s for s in all_stocks}] *)
Definition stock_dict_of (all_stocks : list Stock) : gmap string Stock :=
  foldl (fun d s => <[str_upper (symbol s) := s]> d) ∅ all_stocks.

(** The loop of [NGXWebsiteScraper.get_multiple_stocks] over [symbols]. *)
Definition lookup_all (all_stocks : list Stock) (symbols : list string)
    : gmap string (option Stock) :=
  let stock_dict := stock_dict_of all_stocks in
  foldl (fun result sym => <[sym := stock_dict !! str_upper sym]> result) ∅ symbols.

Definition scraper_get_multiple_stocks (symbols : list string)
    : gmap string (option Stock) :=
  lookup_all fetch_ngx_data symbols.
End Scraper.

(** ** Configuration: [Config.validate] (keeper/config.py) *)

(** The settings [validate] looks at: three environment variables ([None]
    when unset) and whether the ABI file exists. *)
Record Environment : Set := {
  RPC_URL : option string;
  PRIVATE_KEY : option string;
  CONTRACT_ADDRESS : option string;
  abi_file_exists : bool
}.

(** [not v] for an optional string: unset or empty. *)
Definition is_unset (v : option string) : bool :=
  match v with
  | Some (String _ _) => false
  | _ => true
  end.

(** The list [errors] built by [validate]; [abi_path] is the path shown in
    the last message. *)
Definition config_errors (abi_path : string) (env : Environment) : list string :=
  (if is_unset (RPC_URL env) then ["RPC_URL not set in .env file"] else [])
  ++ (if is_unset (PRIVATE_KEY env) then ["PRIVATE_KEY not set in .env file"] else [])
  ++ (if is_unset (CONTRACT_ADDRESS env)
      then ["ORACLE_CONTRACT_ADDRESS not set in .env file (deploy contract first)"]
      else [])
  ++ (if abi_file_exists env then []
      else [("Contract ABI not found at " ++ abi_path
             ++ " (run 'npm run compile' first)")%string]).

Definition newline : string := String "010"%char EmptyString.

(** [validate]: [True], or ValueError with its message. *)
Definition validate (abi_path : string) (env : Environment) : string + bool :=
  match config_errors abi_path env with
  | [] => inr true
  | (_ :: _) as errors =>
      inl ("Configuration errors:" ++ newline
           ++ String.concat newline (map (fun e => "  - " ++ e) errors))%string
  end.

(** ** Status: [get_balance], [get_network_info], [print_stats], [run_forever] *)

(** What the node answers to the status queries. *)
Record NodeStatus : Set := {
  eth_chain_id : exc Z;
  eth_block_number : exc Z;
  eth_gas_price_now : exc Z;
  eth_get_balance : exc Z
}.

Record NetworkInfo : Set := {
  chain_id : Z;
  block_number : Z;
  gas_price_gwei : float;
  balance_eth : float
}.

Inductive Completion : Set := Returned | RaisedKeyError.

(** The inputs of one iteration of [run_forever].  [world_next_update s] is
    lines 243-244 for an interval of [s] seconds: the timestamp
    [datetime.now().timestamp() + s] and its formatting through
    [datetime.fromtimestamp], which raise when the time is out of range;
    [world_sleep s] is [time.sleep(s)] for a length [s >= 0], which raises
    when the length is too large. *)
Record World : Type := {
  world_chain : nat -> Web3;
  world_scraped : list Stock;
  world_mock : list Stock;
  world_node : NodeStatus;
  world_next_update : Z -> exc unit;
  world_sleep : Z -> exc unit
}.

(** Lines 243-247, for [Config.UPDATE_INTERVAL_MINUTES = minutes]:
    [time.sleep] raises ValueError on a negative length. *)
Definition wait_for_next_update (w : World) (minutes : Z) : exc unit :=
  _ ← world_next_update w (minutes * 60);
  if minutes * 60 <? 0 then Raise ValueError else world_sleep w (minutes * 60).

Section Status.
(** [float(d)] for a decimal and [round(x, ndigits)]. *)
Variable float_of_decimal : Q -> float.
Variable py_round : float -> Z -> float.

Definition get_balance (node : NodeStatus) : float :=
  match (balance_wei ← eth_get_balance node; from_wei balance_wei ether) with
  | Ok d => float_of_decimal d
  | Raise _ => 0%float
  end.

(** [get_network_info]: the dictionary with its four keys, or [{}] ([None]). *)
Definition get_network_info (node : NodeStatus) : option NetworkInfo :=
  match (c ← eth_chain_id node;
         b ← eth_block_number node;
         g ← eth_gas_price_now node;
         d ← from_wei g gwei;
         Ok {| chain_id := c;
               block_number := b;
               gas_price_gwei := py_round (float_of_decimal d) 2;
               balance_eth := py_round (get_balance node) 6 |}) with
  | Ok info => Some info
  | Raise _ => None
  end.

(** [print_stats]: it indexes the dictionary with ['block_number']. *)
Definition print_stats (node : NodeStatus) : Completion :=
  match get_network_info node with
  | Some _ => Returned
  | None => RaisedKeyError
  end.

(** One iteration of the [while True] of [run_forever], for
    [Config.UPDATE_INTERVAL_MINUTES = minutes]: the keeper afterwards and,
    when the [except Exception] clause is reached, the exit status.
    (KeyboardInterrupt, which is not an [Exception], is left out.) *)
Definition run_forever_iteration (cfg : Config) (minutes : Z) (w : World) (k : Keeper)
    : Keeper * option Z :=
  let k' := (update_prices cfg (world_chain w) (world_scraped w) (world_mock w) k).1.1 in
  let report :=
    if total_updates (stats k') mod 10 =? 0 then print_stats (world_node w)
    else Returned in
  match report with
  | RaisedKeyError => (k', Some 1)
  | Returned =>
      match wait_for_next_update w minutes with
      | Ok _ => (k', None)
      | Raise _ => (k', Some 1)
      end
  end.

(** The loop run over the worlds of its first iterations. *)
Fixpoint run_forever (cfg : Config) (minutes : Z) (worlds : list World) (k : Keeper)
    : Keeper * option Z :=
  match worlds with
  | [] => (k, None)
  | w :: rest =>
      match run_forever_iteration cfg minutes w k with
      | (k', None) => run_forever cfg minutes rest k'
      | (k', Some code) => (k', Some code)
      end
  end.
End Status.

(** ** Auxiliary notions for the properties *)

(** The gas estimate of the specification's Batcher, in its own words:
    [min(gas_model(count), max_gas_cap)] with
    [gas_model = base_overhead + count * per_item_cost], the constants being
    settings. *)
Definition spec_estimated_gas (base_overhead per_item_cost max_gas_cap : Z)
    (count : nat) : Z :=
  Z.min (base_overhead + Z.of_nat count * per_item_cost) max_gas_cap.

(** A keeper just constructed. *)
Definition fresh_keeper : Keeper :=
  {| last_prices := ∅;
     stats := {| total_updates := 0; successful_updates := 0;
                 failed_updates := 0; total_stocks_updated := 0 |} |}.

(** The default settings of keeper/config.py. *)
Definition default_config : Config :=
  {| MIN_PRICE_CHANGE_PERCENT := 0.5; BATCH_SIZE := 20; MAX_GAS_PRICE_GWEI := 50 |}.

(** A node with a constant gas price (in wei) that mines every transaction
    with the given receipt status (the wei amounts of the prices play no role
    in the keeper's bookkeeping and are left at 0). *)
Definition steady_node (gas_price_wei receipt_status : Z) : Web3 :=
  {| to_wei_ether := fun _ => Ok 0;
     eth_gas_price := fun _ => Ok gas_price_wei;
     get_transaction_count := Ok 0;
     encode_call := fun _ _ => Ok tt;
     send_and_wait := fun _ =>
       Ok {| status := receipt_status; gasUsed := 21000; blockNumber := 1 |} |}.

(** A node whose transport fails on submission. *)
Definition unreachable_node (gas_price_wei : Z) : Web3 :=
  {| to_wei_ether := fun _ => Ok 0;
     eth_gas_price := fun _ => Ok gas_price_wei;
     get_transaction_count := Ok 0;
     encode_call := fun _ _ => Ok tt;
     send_and_wait := fun _ => Raise RpcError |}.

Definition quote (sym : string) (p : float) : Stock :=
  {| symbol := sym; price := p; change := 0 |}.

(** Spec floats strictly above zero. *)
Definition SFpositive (y : spec_float) : Prop :=
  match y with
  | S754_infinity false | S754_finite false _ _ => True
  | _ => False
  end.

(** Settings with one stock per transaction. *)
Definition one_by_one : Config :=
  {| MIN_PRICE_CHANGE_PERCENT := 0.5; BATCH_SIZE := 1; MAX_GAS_PRICE_GWEI := 50 |}.

(** [float] on an unsigned integer literal in ASCII digits below 2^53, where
    the conversion is exact; every other string is left out ([None]). *)
Fixpoint digits_value (s : string) (acc : Z) : option Z :=
  match s with
  | EmptyString => Some acc
  | String c s' =>
      let d := Z.of_nat (nat_of_ascii c) - 48 in
      if (0 <=? d) && (d <=? 9) then digits_value s' (10 * acc + d) else None
  end.

Definition float_of_digits (s : string) : option float :=
  match s with
  | EmptyString => None
  | String _ _ =>
      match digits_value s 0 with
      | Some z => if z <? 2 ^ 53 then Some (of_uint63 (Uint63.of_Z z)) else None
      | None => None
      end
  end.

(** What [re.findall] returns for the pattern of line 43 on the ticker text
    [GTCO N48 % FGNBOND N100,000 % UBA N32 %]. *)
Definition ticker_matches : list (string * string * string) :=
  [("GTCO", "48", ""); ("FGNBOND", "100,000", ""); ("UBA", "32", "")]%string.

(** The pair appended to [stocks_to_update] for a stock. *)
Definition candidate_pair (stock : Stock) : string * float :=
  (symbol stock, price stock).

(** [should_update_price] as a test on a stock. *)
Definition is_candidate (prices : gmap string float) (min_change : float)
    (stock : Stock) : bool :=
  match should_update_price prices min_change (symbol stock) (price stock) with
  | Ok b => b
  | Raise _ => false
  end.

(** The candidates of a cycle. *)
Definition candidates_of (cfg : Config) (k : Keeper) (all_stocks : list Stock)
    : list (string * float) :=
  candidate_pair <$>
    List.filter (is_candidate (last_prices k) (MIN_PRICE_CHANGE_PERCENT cfg)) all_stocks.

(** A call of the chain client that returned a receipt. *)
Definition succeeded (c : ChainCall) : bool :=
  match call_result c with
  | Some _ => true
  | None => false
  end.

(** [self.stats['total_updates'] += 1] *)
Definition count_cycle (k : Keeper) : Keeper :=
  {| last_prices := last_prices k;
     stats := {| total_updates := total_updates (stats k) + 1;
                 successful_updates := successful_updates (stats k);
                 failed_updates := failed_updates (stats k);
                 total_stocks_updated := total_stocks_updated (stats k) |} |}.

(** The status queries whose failure empties the dictionary of
    [get_network_info]. *)
Definition info_fails (node : NodeStatus) : bool :=
  raised (eth_chain_id node) || raised (eth_block_number node)
  || raised (g ← eth_gas_price_now node; from_wei g gwei).

(** A node that mines every transaction and then fails on the gas price
    read of the cost report. *)
Definition flaky_report_node (gas_price_wei : Z) : Web3 :=
  {| to_wei_ether := fun _ => Ok 0;
     eth_gas_price := fun n => if (n <? 2)%nat then Ok gas_price_wei else Raise RpcError;
     get_transaction_count := Ok 0;
     encode_call := fun _ _ => Ok tt;
     send_and_wait := fun _ =>
       Ok {| status := 1; gasUsed := 21000; blockNumber := 1 |} |}.

(** A site whose first page cannot be reached, whose second page is the
    ticker text and whose third page does not exist. *)
Definition ticker_site (url : string) : exc HttpResponse :=
  if String.eqb url "https://ngxgroup.com/exchange/data/" then Raise RpcError
  else if String.eqb url "https://ngxgroup.com/exchange/data/equities-price-list/"
  then Ok {| status_code := 200;
             text := "DELAYED DATA: GTCO N48 % FGNBOND N100,000 % UBA N32 %" |}
  else Ok {| status_code := 404; text := "" |}.

(** A node that answers every status query, and one that is unreachable. *)
Definition healthy_status : NodeStatus :=
  {| eth_chain_id := Ok 11155111; eth_block_number := Ok 1;
     eth_gas_price_now := Ok (30 * gwei); eth_get_balance := Ok ether |}.

Definition unreachable_status : NodeStatus :=
  {| eth_chain_id := Raise RpcError; eth_block_number := Raise RpcError;
     eth_gas_price_now := Raise RpcError; eth_get_balance := Raise RpcError |}.

(** * Properties *)

(** ** Facts about binary64 arithmetic

    They go through the specification of the primitive operations
    ([Prim2SF], [SFdiv], [SFmul], [SFcompare]). *)

Section FloatFacts.
Lemma SFcompare_antisym (x y : spec_float) :
  SFcompare y x = option_map CompOpp (SFcompare x y).
Proof.
  destruct x as [sx|sx| |sx mx ex], y as [sy|sy| |sy my ey]; simpl;
    try reflexivity; try (destruct sx; reflexivity);
    try (destruct sy; reflexivity); try (destruct sx, sy; reflexivity).
  f_equal. rewrite (Z.compare_antisym ey ex).
  change (PosDef.Pos.compare_cont Eq my mx) with (Pos.compare my mx).
  change (PosDef.Pos.compare_cont Eq mx my) with (Pos.compare mx my).
  rewrite (Pos.compare_antisym my mx).
  destruct sx, sy, (ey ?= ex), (my ?= mx)%positive; reflexivity.
Qed.

Lemma SFcompare_nan_free (x y : float) :
  is_nan x = false -> is_nan y = false ->
  exists c, SFcompare (Prim2SF x) (Prim2SF y) = Some c.
Proof.
  unfold is_nan. rewrite !FloatAxioms.eqb_spec. unfold SFeqb.
  destruct (Prim2SF x) as [sx|sx| |sx mx ex], (Prim2SF y) as [sy|sy| |sy my ey];
    simpl; intros Hx Hy; try discriminate; eauto.
Qed.

(** [not (y < x)] is [x <= y] away from NaN. *)
Lemma float_not_lt_le (x y : float) :
  is_nan x = false -> is_nan y = false ->
  (y <? x)%float = false -> (x <=? y)%float = true.
Proof.
  intros Hx Hy. rewrite FloatAxioms.ltb_spec, FloatAxioms.leb_spec. unfold SFltb, SFleb.
  destruct (SFcompare_nan_free x y Hx Hy) as [c Hc].
  rewrite (SFcompare_antisym (Prim2SF x) (Prim2SF y)), Hc.
  destruct c; simpl; congruence.
Qed.

Lemma float_eqb_leb (x y : float) :
  (x =? y)%float = true -> (y <=? x)%float = true.
Proof.
  rewrite FloatAxioms.eqb_spec, FloatAxioms.leb_spec. unfold SFeqb, SFleb.
  rewrite (SFcompare_antisym (Prim2SF x) (Prim2SF y)).
  destruct (SFcompare (Prim2SF x) (Prim2SF y)) as [[]|]; simpl; congruence.
Qed.

Lemma SFabs_binary_round_aux (s : bool) (m e : Z) (l : location) :
  SFabs (binary_round_aux prec emax s m e l) = binary_round_aux prec emax false m e l.
Proof.
  unfold binary_round_aux.
  destruct (shr_fexp prec emax m e l) as [mrs' e'].
  destruct (shr_fexp prec emax _ e' loc_Exact) as [mrs'' e''].
  destruct (shr_m mrs''); [reflexivity| |reflexivity].
  destruct (e'' <=? emax - prec); reflexivity.
Qed.

Lemma SFpositive_of_ltb (y : float) :
  (0 <? y)%float = true -> SFpositive (Prim2SF y).
Proof.
  rewrite FloatAxioms.ltb_spec. unfold SFltb.
  change (Prim2SF 0) with (S754_zero false).
  destruct (Prim2SF y) as [sy|[]| |[] my ey]; simpl; try discriminate; trivial.
Qed.

Lemma SFabs_div (x y : spec_float) :
  SFpositive y -> SFabs (SF64div x y) = SF64div (SFabs x) y.
Proof.
  unfold SF64div, SFdiv.
  destruct x as [sx|sx| |sx mx ex], y as [sy|[]| |[] my ey]; simpl;
    try contradiction; intros _; try reflexivity.
  destruct (SFdiv_core_binary prec emax (Z.pos mx) ex (Z.pos my) ey) as [[mz ez] lz].
  rewrite SFabs_binary_round_aux. reflexivity.
Qed.

Lemma SFabs_mul (x y : spec_float) :
  SFpositive y -> SFabs (SF64mul x y) = SF64mul (SFabs x) y.
Proof.
  unfold SF64mul, SFmul.
  destruct x as [sx|sx| |sx mx ex], y as [sy|[]| |[] my ey]; simpl;
    try contradiction; intros _; try reflexivity.
  rewrite SFabs_binary_round_aux. reflexivity.
Qed.

(** The percentage change as the code computes it, [abs(d / old * 100)],
    is [abs(d) / old * 100] when the old price is positive. *)
Lemma abs_div_mul_100 (d old : float) :
  (0 <? old)%float = true ->
  abs (d / old * 100)%float = (abs d / old * 100)%float.
Proof.
  intros Hpos. apply Prim2SF_inj.
  rewrite abs_spec, !mul_spec, !div_spec, abs_spec.
  rewrite SFabs_mul, SFabs_div; [reflexivity| |].
  - by apply SFpositive_of_ltb.
  - exact I.
Qed.
End FloatFacts.

(** ** Facts about ranges and slices *)

Section Batcher.
Context {A : Type}.
Implicit Types (l : list A) (b i : Z) (m k : nat).

Lemma py_slice_chunk l i b :
  0 <= i -> 0 <= b ->
  py_slice l i (i + b) = take (Z.to_nat b) (drop (Z.to_nat i) l).
Proof.
  intros Hi Hb. unfold py_slice, py_slice_index.
  destruct (Z.ltb_spec i 0) as [?|_]; [lia|].
  destruct (Z.ltb_spec (i + b) 0) as [?|_]; [lia|].
  destruct (Z.le_gt_cases (Z.of_nat (length l)) i) as [Hge|Hlt].
  - rewrite !drop_ge by lia. by rewrite !take_nil.
  - replace (Z.to_nat (Z.min i (Z.of_nat (length l)))) with (Z.to_nat i) by lia.
    destruct (Z.le_gt_cases (i + b) (Z.of_nat (length l))) as [Hin|Hout].
    + f_equal. lia.
    + rewrite !take_ge; [done | | ]; rewrite length_drop; lia.
Qed.

Lemma concat_chunks l (b m : nat) :
  concat (map (fun k => take b (drop (k * b) l)) (seq 0 m)) = take (m * b) l.
Proof.
  induction m as [|m IH]; [done|].
  rewrite seq_S, map_app, concat_app, IH. simpl. rewrite app_nil_r.
  replace (b + m * b)%nat with (m * b + b)%nat by lia.
  by rewrite take_take_drop.
Qed.
End Batcher.

Lemma py_range_len_chunks (n b : Z) :
  0 <= n -> 1 <= b ->
  n <= Z.of_nat (py_range_len 0 n b) * b < n + b.
Proof.
  intros Hn Hb. unfold py_range_len.
  destruct (Z.ltb_spec 0 b) as [_|?]; [|lia].
  rewrite Z.sub_0_r, Z2Nat.id by (apply Z.div_pos; lia).
  pose proof (Z.div_mod (n + b - 1) b ltac:(lia)) as Hdm.
  pose proof (Z.mod_pos_bound (n + b - 1) b ltac:(lia)) as Hmod.
  nia.
Qed.

Lemma batches_of_chunks (l : list (string*float)) (b : Z) :
  1 <= b ->
  batches_of l b =
    map (fun k => take (Z.to_nat b) (drop (k * Z.to_nat b) l))
        (seq 0 (py_range_len 0 (Z.of_nat (length l)) b)).
Proof.
  intros Hb. unfold batches_of, py_range. rewrite map_map.
  apply map_ext. intros k. rewrite Z.add_0_l, py_slice_chunk by lia.
  do 2 f_equal. lia.
Qed.

(** ** ChangeFilter *)

(** [should_update_price] returns for every input: it never raises. *)
Lemma should_update_price_total prices min_change sym new_price :
  exists b, should_update_price prices min_change sym new_price = Ok b.
Proof.
  unfold should_update_price, should_update_price_with, py_truediv.
  destruct (prices !! sym) as [old|]; [|eauto].
  destruct (old =? 0)%float; [eauto|]. simpl.
  destruct (min_change <=? _)%float; eauto.
Qed.

Lemma filter_stocks_elem prices min_change all_stocks :
  exists cands,
    filter_stocks prices min_change all_stocks = Ok cands
    /\ forall sym p,
         (sym, p) ∈ cands <->
         exists stock, stock ∈ all_stocks /\ symbol stock = sym /\ price stock = p
           /\ should_update_price prices min_change sym p = Ok true.
Proof.
  induction all_stocks as [|stock rest (tl & Htl & IH)].
  - exists []. split; [done|]. intros sym p. split.
    + intros H. by apply elem_of_nil in H.
    + intros (stock & H & _). by apply elem_of_nil in H.
  - destruct (should_update_price_total prices min_change (symbol stock) (price stock))
      as [b Hb].
    exists (if b then (symbol stock, price stock) :: tl else tl). split.
    + unfold filter_stocks in *. simpl.
      fold (should_update_price prices min_change (symbol stock) (price stock)).
      rewrite Hb. simpl. by rewrite Htl.
    + intros sym p. destruct b.
      * rewrite elem_of_cons, IH. split.
        -- intros [[= -> ->]|(s & Hs & Hrest)].
           ++ exists stock. rewrite elem_of_cons. eauto.
           ++ exists s. rewrite elem_of_cons. eauto.
        -- intros (s & [->|Hs]%elem_of_cons & <- & <- & Hup); [by left|].
           right. eauto.
      * rewrite IH. split.
        -- intros (s & Hs & Hrest). exists s. rewrite elem_of_cons. eauto.
        -- intros (s & [->|Hs]%elem_of_cons & <- & <- & Hup); [congruence|eauto].
Qed.

(** With a positive old price the code's test is the specification's. *)
Lemma should_update_price_positive prices min_change sym new_price old_price :
  prices !! sym = Some old_price ->
  (0 <? old_price)%float = true ->
  should_update_price prices min_change sym new_price
  = Ok (min_change <=? spec_pct new_price old_price)%float.
Proof.
  intros Hold Hpos.
  unfold should_update_price, should_update_price_with, py_truediv, spec_pct.
  rewrite Hold.
  assert ((old_price =? 0)%float = false) as ->.
  { revert Hpos. rewrite FloatAxioms.ltb_spec, FloatAxioms.eqb_spec.
    unfold SFltb, SFeqb.
    rewrite (SFcompare_antisym (Prim2SF 0) (Prim2SF old_price)).
    destruct (SFcompare (Prim2SF 0) (Prim2SF old_price)) as [[]|]; simpl;
      congruence. }
  simpl. rewrite abs_div_mul_100 by done.
  by destruct (min_change <=? _)%float.
Qed.

(** C4: for an observation whose symbol has a stored last price
    [old_price > 0], the filter emits the candidate if and only if
    [|new - old| / old * 100 >= min_change_percent]; the comparison is [>=],
    so a percentage equal to the threshold is emitted. *)
Theorem change_filter_threshold
    (prices : gmap string float) (min_change : float)
    (all_stocks : list Stock) (stock : Stock) (old_price : float) :
  stock ∈ all_stocks ->
  prices !! symbol stock = Some old_price ->
  (0 <? old_price)%float = true ->
  should_update_price prices min_change (symbol stock) (price stock)
    = Ok (min_change <=? spec_pct (price stock) old_price)%float
  /\ (exists cands,
        filter_stocks prices min_change all_stocks = Ok cands
        /\ ((symbol stock, price stock) ∈ cands <->
            (min_change <=? spec_pct (price stock) old_price)%float = true))
  /\ ((spec_pct (price stock) old_price =? min_change)%float = true ->
      should_update_price prices min_change (symbol stock) (price stock) = Ok true).
Proof.
  intros Hin Hold Hpos.
  pose proof (should_update_price_positive prices min_change (symbol stock)
                (price stock) old_price Hold Hpos) as Hdec.
  split; [exact Hdec|]. split.
  - destruct (filter_stocks_elem prices min_change all_stocks) as (cands & Hc & Hmem).
    exists cands. split; [exact Hc|]. rewrite Hmem, Hdec. split.
    + intros (_ & _ & _ & _ & [= ->]). reflexivity.
    + intros ->. exists stock. eauto.
  - intros Heq. rewrite Hdec. f_equal. by apply float_eqb_leb.
Qed.

Lemma change_filter_threshold_witness :
  should_update_price {[ "A" := 100%float ]} 0.5 "A" 100.5 = Ok true
  /\ should_update_price {[ "A" := 100%float ]} 0.5 "A" 100.25 = Ok false.
Proof.
  split.
  - apply (change_filter_threshold {[ "A" := 100%float ]} 0.5
             [quote "A" 100.5] (quote "A" 100.5) 100);
      [apply list_elem_of_here|reflexivity|reflexivity|reflexivity].
  - exact (proj1 (change_filter_threshold {[ "A" := 100%float ]} 0.5
                    [quote "A" 100.25] (quote "A" 100.25) 100
                    (list_elem_of_here _ _) eq_refl eq_refl)).
Defined.

(** C6: an observation whose symbol is absent from [last_prices] is always a
    candidate (the specification's [NEW]), whatever its price and whatever
    the threshold. *)
Theorem unseen_symbol_is_candidate
    (prices : gmap string float) (min_change : float)
    (all_stocks : list Stock) (stock : Stock) :
  stock ∈ all_stocks ->
  prices !! symbol stock = None ->
  should_update_price prices min_change (symbol stock) (price stock) = Ok true
  /\ spec_change_filter prices min_change (symbol stock) (price stock) = Some NEW
  /\ exists cands,
       filter_stocks prices min_change all_stocks = Ok cands
       /\ (symbol stock, price stock) ∈ cands.
Proof.
  intros Hin Habsent.
  assert (should_update_price prices min_change (symbol stock) (price stock)
          = Ok true) as Hdec.
  { unfold should_update_price, should_update_price_with. by rewrite Habsent. }
  split; [exact Hdec|]. split.
  - unfold spec_change_filter. by rewrite Habsent.
  - destruct (filter_stocks_elem prices min_change all_stocks) as (cands & Hc & Hmem).
    exists cands. split; [exact Hc|]. apply Hmem. exists stock. eauto.
Qed.

Lemma unseen_symbol_is_candidate_witness :
  should_update_price ∅ 0.5 "A" 100 = Ok true
  /\ filter_stocks ∅ 0.5 [quote "A" 100; quote "B" 50]
     = Ok [("A", 100%float); ("B", 50%float)].
Proof.
  split; [|reflexivity].
  apply (unseen_symbol_is_candidate ∅ 0.5 [quote "A" 100; quote "B" 50]
           (quote "A" 100)); [apply list_elem_of_here|reflexivity].
Defined.




(** ** Chain client *)

Lemma gas_too_high_spec (gp max_gwei : Z) :
  gas_too_high (inject_Z gp / inject_Z gwei)%Q max_gwei = true <-> max_gwei * gwei < gp.
Proof.
  unfold gas_too_high. rewrite negb_true_iff, <- not_true_iff_false, Qle_bool_iff.
  unfold Qle, Qdiv, Qmult, Qinv, inject_Z, gwei. simpl. lia.
Qed.

Lemma from_wei_gate (gp max_gwei : Z) :
  max_gwei * gwei < gp ->
  match from_wei gp gwei with
  | Ok current_gas => gas_too_high current_gas max_gwei = true
  | Raise _ => True
  end.
Proof.
  intros Hgp. unfold from_wei.
  destruct (Z.eqb_spec gp 0) as [->|Hne].
  - unfold gas_too_high. rewrite negb_true_iff, <- not_true_iff_false, Qle_bool_iff.
    unfold Qle, inject_Z, gwei in *. simpl. lia.
  - destruct (_ || _); [exact I|]. by apply gas_too_high_spec.
Qed.

Lemma batch_update_prices_gas_gate w3 batch max_gwei gp :
  eth_gas_price w3 0 = Ok gp ->
  max_gwei * gwei < gp ->
  batch_update_prices w3 batch max_gwei = ([], None).
Proof.
  intros Hgp Hhigh. unfold batch_update_prices.
  destruct batch as [|sp batch]; [done|].
  destruct (exc_map _ _) as [prices_wei|e]; simpl; [|done].
  rewrite Hgp. simpl.
  pose proof (from_wei_gate gp max_gwei Hhigh) as Hgate.
  destruct (from_wei gp gwei) as [current_gas|e]; simpl; [|done].
  by rewrite Hgate.
Qed.

Lemma send_transaction_receipt w3 tx r :
  _send_transaction w3 tx = Some r <-> send_and_wait w3 tx = Ok r /\ status r = 1.
Proof.
  unfold _send_transaction.
  destruct (send_and_wait w3 tx) as [r'|e]; [|split; [done|intros [? _]; done]].
  destruct (Z.eqb_spec (status r') 1); split.
  - intros [= ->]. done.
  - intros [[= ->] _]. done.
  - done.
  - intros [[= ->] ?]. done.
Qed.

Lemma batch_update_prices_sent w3 batch max_gwei tx :
  tx ∈ (batch_update_prices w3 batch max_gwei).1 ->
  (batch_update_prices w3 batch max_gwei).1 = [tx]
  /\ tx_symbols tx = batch.*1
  /\ tx_gas tx = gas_estimate (length batch).
Proof.
  unfold batch_update_prices.
  destruct batch as [|sp batch]; [by intros ?%elem_of_nil|].
  destruct (exc_map _ _) as [prices_wei|e]; simpl; [|by intros ?%elem_of_nil].
  destruct (eth_gas_price w3 0) as [gp|e]; simpl; [|by intros ?%elem_of_nil].
  destruct (from_wei gp gwei) as [current_gas|e]; simpl; [|by intros ?%elem_of_nil].
  destruct (gas_too_high _ _); [by intros ?%elem_of_nil|].
  destruct (get_transaction_count w3) as [nonce|e]; simpl; [|by intros ?%elem_of_nil].
  destruct (encode_call w3 _ _) as [[]|e]; simpl; [|by intros ?%elem_of_nil].
  destruct (eth_gas_price w3 1) as [gp'|e]; simpl; [|by intros ?%elem_of_nil].
  intros ->%list_elem_of_singleton. simpl.
  by rewrite length_fmap.
Qed.

Lemma batch_update_prices_receipt w3 batch max_gwei r :
  (batch_update_prices w3 batch max_gwei).2 = Some r ->
  status r = 1
  /\ exists tx, (batch_update_prices w3 batch max_gwei).1 = [tx]
                /\ send_and_wait w3 tx = Ok r.
Proof.
  unfold batch_update_prices.
  destruct batch as [|sp batch]; [done|].
  destruct (exc_map _ _) as [prices_wei|e]; simpl; [|done].
  destruct (eth_gas_price w3 0) as [gp|e]; simpl; [|done].
  destruct (from_wei gp gwei) as [current_gas|e]; simpl; [|done].
  destruct (gas_too_high _ _); [done|].
  destruct (get_transaction_count w3) as [nonce|e]; simpl; [|done].
  destruct (encode_call w3 _ _) as [[]|e]; simpl; [|done].
  destruct (eth_gas_price w3 1) as [gp'|e]; simpl; [|done].
  destruct (_send_transaction w3 _) as [r'|] eqn:Hsend; [|done].
  apply send_transaction_receipt in Hsend as [Hsend Hst].
  rewrite Hst. simpl.
  destruct (eth_gas_price w3 2) as [gp''|e]; simpl; [|done].
  destruct (from_wei _ ether); simpl; [|done].
  destruct (py_int_truediv_check _ _); [|done].
  intros [= <-]. eauto.
Qed.

Lemma batch_update_prices_failed w3 batch max_gwei :
  (forall tx, match send_and_wait w3 tx with
              | Ok receipt => status receipt <> 1
              | Raise _ => True
              end) ->
  (batch_update_prices w3 batch max_gwei).2 = None.
Proof.
  intros Hfail.
  destruct (batch_update_prices w3 batch max_gwei).2 as [r|] eqn:Hres; [|done].
  apply batch_update_prices_receipt in Hres as (Hst & tx & _ & Hsend).
  specialize (Hfail tx). rewrite Hsend in Hfail. done.
Qed.

Lemma batch_update_prices_rpc_error w3 batch max_gwei :
  raised (eth_gas_price w3 0) = true \/ raised (get_transaction_count w3) = true ->
  batch_update_prices w3 batch max_gwei = ([], None).
Proof.
  intros Hrpc. unfold batch_update_prices.
  destruct batch as [|sp batch]; [done|].
  destruct (exc_map _ _) as [prices_wei|e]; simpl; [|done].
  destruct (eth_gas_price w3 0) as [gp|e]; simpl; [|done].
  destruct (from_wei gp gwei) as [current_gas|e]; simpl; [|done].
  destruct (gas_too_high _ _); [done|].
  destruct (get_transaction_count w3) as [nonce|e]; simpl; [|done].
  by destruct Hrpc.
Qed.

(** ** Submission loop *)

Lemma store_prices_not_in (prices : gmap string float) batch s :
  s ∉ batch.*1 -> store_prices prices batch !! s = prices !! s.
Proof.
  revert prices. induction batch as [|[s' p'] batch IH]; intros prices Hs; [done|].
  rewrite fmap_cons, not_elem_of_cons in Hs. destruct Hs as [Hne Hs].
  unfold store_prices in *. simpl. rewrite IH by done.
  by rewrite lookup_insert_ne.
Qed.

Lemma store_prices_last (prices : gmap string float) pre s p post :
  s ∉ post.*1 -> store_prices prices (pre ++ (s, p) :: post) !! s = Some p.
Proof.
  intros Hs. unfold store_prices. rewrite foldl_app. simpl.
  fold (store_prices (<[s:=p]> (foldl (fun m sp => <[sp.1:=sp.2]> m) prices pre)) post).
  rewrite store_prices_not_in by done. apply lookup_insert_eq.
Qed.

Lemma submit_loop_step cfg chain stocks n i rest k :
  submit_loop cfg chain stocks n (i :: rest) k =
  let batch := py_slice stocks i (i + BATCH_SIZE cfg) in
  let out := batch_update_prices (chain n) batch (MAX_GAS_PRICE_GWEI cfg) in
  let next := submit_loop cfg chain stocks (S n) rest (record_result k batch out.2) in
  (next.1, {| call_batch := batch; call_sent := out.1; call_result := out.2 |} :: next.2).
Proof.
  simpl. destruct (batch_update_prices _ _ _) as [sent receipt]. simpl.
  by destruct (submit_loop _ _ _ _ _ _).
Qed.

Lemma submit_loop_batches cfg chain stocks n indices k :
  call_batch <$> (submit_loop cfg chain stocks n indices k).2
  = (fun i => py_slice stocks i (i + BATCH_SIZE cfg)) <$> indices.
Proof.
  revert n k. induction indices as [|i rest IH]; intros n k; [done|].
  rewrite submit_loop_step. simpl. by rewrite IH.
Qed.

Lemma update_prices_submits cfg chain scraped mock k stocks :
  filter_stocks (last_prices k) (MIN_PRICE_CHANGE_PERCENT cfg)
    (fetched_stocks scraped mock) = Ok stocks ->
  stocks <> [] -> BATCH_SIZE cfg <> 0 ->
  let '(k', ok, calls) := update_prices cfg chain scraped mock k in
  ok = true /\ call_batch <$> calls = batches_of stocks (BATCH_SIZE cfg).
Proof.
  intros Hf Hne Hbs. unfold update_prices. rewrite Hf.
  destruct stocks as [|sp stocks]; [done|].
  destruct (Z.eqb_spec (BATCH_SIZE cfg) 0) as [?|_]; [done|].
  pose proof (submit_loop_batches cfg chain (sp :: stocks) 0
    (py_range 0 (Z.of_nat (length (sp :: stocks))) (BATCH_SIZE cfg)) k) as Hb.
  destruct (submit_loop _ _ _ _ _ _) as [k' calls]. simpl in Hb.
  split; [done|]. exact Hb.
Qed.

(** ** Batcher *)

(** C3: for every candidate sequence and every [batch_size >= 1] the batches
    are consecutive chunks in order: their concatenation is the candidate
    sequence, no batch has more than [batch_size] items (and none is empty),
    and they are the batches the submission loop hands to the chain client. *)
Theorem batcher_partition
    (cfg : Config) (chain : nat -> Web3)
    (candidates : list (string * float)) (n : nat) (k : Keeper) :
  1 <= BATCH_SIZE cfg ->
  concat (batches_of candidates (BATCH_SIZE cfg)) = candidates
  /\ Forall (fun batch => 1 <= Z.of_nat (length batch) <= BATCH_SIZE cfg)
            (batches_of candidates (BATCH_SIZE cfg))
  /\ call_batch <$>
       (submit_loop cfg chain candidates n
          (py_range 0 (Z.of_nat (length candidates)) (BATCH_SIZE cfg)) k).2
     = batches_of candidates (BATCH_SIZE cfg).
Proof.
  intros Hb. set (batch_size := BATCH_SIZE cfg) in *.
  pose proof (py_range_len_chunks (Z.of_nat (length candidates)) batch_size
                ltac:(lia) Hb) as Hm.
  split; [|split].
  - rewrite batches_of_chunks by done.
    rewrite concat_chunks. apply take_ge. lia.
  - rewrite batches_of_chunks by done.
    apply Forall_forall. intros batch Hin.
    apply list_elem_of_fmap in Hin as (j & -> & Hj). apply elem_of_seq in Hj.
    rewrite length_take, length_drop.
    assert (j * Z.to_nat batch_size < length candidates)%nat by nia.
    lia.
  - apply submit_loop_batches.
Qed.

Lemma batcher_partition_witness :
  concat (batches_of [("A", 100%float); ("B", 50%float); ("C", 7%float)] 2)
    = [("A", 100%float); ("B", 50%float); ("C", 7%float)]
  /\ batches_of [("A", 100%float); ("B", 50%float); ("C", 7%float)] 2
     = [[("A", 100%float); ("B", 50%float)]; [("C", 7%float)]].
Proof.
  split.
  - apply (batcher_partition
             {| MIN_PRICE_CHANGE_PERCENT := 0.5; BATCH_SIZE := 2;
                MAX_GAS_PRICE_GWEI := 50 |}
             (fun _ => steady_node 0 1)
             [("A", 100%float); ("B", 50%float); ("C", 7%float)] 0 fresh_keeper).
    simpl. lia.
  - reflexivity.
Defined.

(** ** Gas model *)

(** C5 (amended): every transaction [batch_update_prices] sends for a batch
    of [n] items carries the gas [min(200000 + n * 150000, 8000000)], so never
    more than 8000000; the three constants are fixed in the code. *)
Theorem estimated_gas_fixed_model
    (w3 : Web3) (batch : list (string * float)) (max_gas_price_gwei : Z) (tx : Tx) :
  tx ∈ (batch_update_prices w3 batch max_gas_price_gwei).1 ->
  tx_gas tx = Z.min (200000 + Z.of_nat (length batch) * 150000) 8000000
  /\ tx_gas tx = spec_estimated_gas base_gas gas_per_stock max_gas (length batch)
  /\ tx_gas tx <= 8000000.
Proof.
  intros Htx.
  apply batch_update_prices_sent in Htx as (_ & _ & ->).
  unfold gas_estimate, spec_estimated_gas, base_gas, gas_per_stock, max_gas.
  repeat split; lia.
Qed.

Lemma estimated_gas_fixed_model_witness :
  tx_gas {| tx_symbols := ["GTCO"]; tx_prices_wei := [0]; tx_nonce := 0;
            tx_gas := 350000; tx_gasPrice := 30 * gwei |} <= 8000000.
Proof.
  apply (estimated_gas_fixed_model (steady_node (30 * gwei) 1)
           [("GTCO", 48.75%float)] 50).
  vm_compute. apply list_elem_of_here.
Defined.

(** The gas of a transaction does not follow a configured gas model: a
    one-item batch is sent with 350000 gas, where the model with overhead
    21000 and per-item cost 50000 gives 71000. *)
Lemma estimated_gas_not_configurable :
  tx_gas <$> (batch_update_prices (steady_node (30 * gwei) 1)
                [("GTCO", 48.75%float)] 50).1 = [350000]
  /\ spec_estimated_gas 21000 50000 8000000 1 = 71000
  /\ gas_estimate 1 <> spec_estimated_gas 21000 50000 8000000 1.
Proof. vm_compute. repeat split; discriminate. Qed.

(** ** Bookkeeping of the submission loop *)

(** C1 (amended): when the gas price read at the gate is above the configured
    maximum, nothing is sent for the batch and [None] is returned; the keeper
    leaves [last_prices] as it was, increments [failed_updates] (it has no
    counter for skipped batches), and goes on with the remaining batches,
    every one of which is handed to the chain client. *)
Theorem gas_gated_batch_counted_failed
    (cfg : Config) (chain : nat -> Web3) (stocks : list (string * float))
    (n : nat) (i : Z) (rest : list Z) (k : Keeper) (gp : Z) :
  eth_gas_price (chain n) 0 = Ok gp ->
  MAX_GAS_PRICE_GWEI cfg * gwei < gp ->
  let batch := py_slice stocks i (i + BATCH_SIZE cfg) in
  let after := record_result k batch None in
  let next := submit_loop cfg chain stocks (S n) rest after in
  batch_update_prices (chain n) batch (MAX_GAS_PRICE_GWEI cfg) = ([], None)
  /\ last_prices after = last_prices k
  /\ failed_updates (stats after) = failed_updates (stats k) + 1
  /\ successful_updates (stats after) = successful_updates (stats k)
  /\ total_stocks_updated (stats after) = total_stocks_updated (stats k)
  /\ submit_loop cfg chain stocks n (i :: rest) k
     = (next.1,
        {| call_batch := batch; call_sent := []; call_result := None |} :: next.2)
  /\ call_batch <$> next.2
     = (fun j => py_slice stocks j (j + BATCH_SIZE cfg)) <$> rest.
Proof.
  intros Hgp Hhigh batch after next.
  pose proof (batch_update_prices_gas_gate (chain n) batch
                (MAX_GAS_PRICE_GWEI cfg) gp Hgp Hhigh) as Hout.
  split; [exact Hout|]. do 4 (split; [reflexivity|]). split.
  - rewrite submit_loop_step. cbv zeta. fold batch. by rewrite Hout.
  - apply submit_loop_batches.
Qed.

Lemma gas_gated_batch_counted_failed_witness :
  submit_loop one_by_one (fun _ => steady_node (60 * gwei) 1)
    [("A", 100%float); ("B", 50%float)] 0 [0; 1] fresh_keeper
  = ((submit_loop one_by_one (fun _ => steady_node (60 * gwei) 1)
        [("A", 100%float); ("B", 50%float)] 1 [1]
        (record_result fresh_keeper [("A", 100%float)] None)).1,
     {| call_batch := [("A", 100%float)]; call_sent := []; call_result := None |}
       :: (submit_loop one_by_one (fun _ => steady_node (60 * gwei) 1)
             [("A", 100%float); ("B", 50%float)] 1 [1]
             (record_result fresh_keeper [("A", 100%float)] None)).2).
Proof.
  apply (gas_gated_batch_counted_failed one_by_one
           (fun _ => steady_node (60 * gwei) 1)
           [("A", 100%float); ("B", 50%float)] 0 0 [1] fresh_keeper (60 * gwei)).
  - reflexivity.
  - vm_compute. reflexivity.
Defined.

(** Gas price 60 gwei against a ceiling of 50: both one-item batches are
    rejected by the gate, nothing is sent, no price is stored, and the
    failed-batch counter goes from 0 to 2. *)
Lemma gas_gate_counts_as_failure :
  let out := update_prices one_by_one (fun _ => steady_node (60 * gwei) 1)
               [quote "A" 100; quote "B" 50] [] fresh_keeper in
  gas_too_high (inject_Z (60 * gwei) / inject_Z gwei) 50 = true
  /\ call_sent <$> out.2 = [[]; []]
  /\ call_result <$> out.2 = [None; None]
  /\ last_prices out.1.1 !! "A" = None
  /\ failed_updates (stats fresh_keeper) = 0
  /\ failed_updates (stats out.1.1) = 2.
Proof. vm_compute. repeat split; reflexivity. Qed.

(** The bookkeeping of one iteration in terms of what [batch_update_prices]
    returns: [last_prices] holds for every symbol of the batch its submitted
    price (the last one submitted for that symbol) when a receipt was
    returned, which then is the receipt of the sent transaction and has
    status 1; when [None] was returned (failure, or rejection at the gas
    gate) [last_prices] is unchanged; and symbols outside the batch are never
    touched.  The converse direction, from a status-1 receipt of the sent
    transaction to a returned receipt, does not hold: see
    [confirmed_batch_left_unstored]. *)
Theorem prices_stored_iff_confirmed
    (cfg : Config) (chain : nat -> Web3) (stocks : list (string * float))
    (n : nat) (i : Z) (rest : list Z) (k : Keeper) :
  let batch := py_slice stocks i (i + BATCH_SIZE cfg) in
  let out := batch_update_prices (chain n) batch (MAX_GAS_PRICE_GWEI cfg) in
  let after := record_result k batch out.2 in
  let next := submit_loop cfg chain stocks (S n) rest after in
  submit_loop cfg chain stocks n (i :: rest) k
    = (next.1,
       {| call_batch := batch; call_sent := out.1; call_result := out.2 |} :: next.2)
  /\ (forall r, out.2 = Some r ->
        status r = 1
        /\ (exists tx, out.1 = [tx] /\ send_and_wait (chain n) tx = Ok r)
        /\ forall pre s p post,
             batch = pre ++ (s, p) :: post -> s ∉ post.*1 ->
             last_prices after !! s = Some p)
  /\ (out.2 = None -> last_prices after = last_prices k)
  /\ (forall gp, eth_gas_price (chain n) 0 = Ok gp ->
                 MAX_GAS_PRICE_GWEI cfg * gwei < gp -> out.2 = None)
  /\ ((forall tx, match send_and_wait (chain n) tx with
                  | Ok receipt => status receipt <> 1
                  | Raise _ => True
                  end) -> out.2 = None)
  /\ (forall s, s ∉ batch.*1 -> last_prices after !! s = last_prices k !! s).
Proof.
  intros batch out after next. split; [apply submit_loop_step|].
  split; [|split; [|split; [|split]]].
  - intros r Hr. destruct (batch_update_prices_receipt _ _ _ _ Hr) as [Hst Htx].
    split; [exact Hst|]. split; [exact Htx|].
    intros pre s p post Hbatch Hs. subst after. rewrite Hr. simpl.
    rewrite Hbatch. by apply store_prices_last.
  - intros Hnone. subst after. by rewrite Hnone.
  - intros gp Hgp Hhigh. subst out.
    by rewrite (batch_update_prices_gas_gate _ _ _ gp Hgp Hhigh).
  - intros Hfail. by apply batch_update_prices_failed.
  - intros s Hs. subst after. destruct out.2; simpl; [|done].
    by apply store_prices_not_in.
Qed.

Lemma prices_stored_iff_confirmed_witness :
  last_prices
    (record_result fresh_keeper [("A", 100%float)]
       (batch_update_prices (steady_node (30 * gwei) 1) [("A", 100%float)] 50).2)
    !! "A" = Some 100%float.
Proof.
  pose proof (prices_stored_iff_confirmed one_by_one
                (fun _ => steady_node (30 * gwei) 1)
                [("A", 100%float); ("B", 50%float)] 0 0 [1] fresh_keeper)
    as (_ & Hstored & _).
  destruct (Hstored {| status := 1; gasUsed := 21000; blockNumber := 1 |}
              ltac:(reflexivity)) as (_ & _ & Hlast).
  apply (Hlast [] "A" 100%float []); [reflexivity|].
  apply not_elem_of_nil.
Defined.

(** C2: the code departs from the claim.  A batch whose transaction the chain
    confirmed with a status-1 receipt is not stored when the gas price read
    of the cost report (line 218, inside the [try]) raises afterwards.  With
    one stock per batch and a node that mines every transaction and then
    fails on that read, the cycle sends the transaction for GTCO,
    [_send_transaction] returns its receipt with status 1, and yet
    [batch_update_prices] returns [None]: the keeper counts a failed batch
    and [last_prices] has no entry for GTCO. *)
Theorem confirmed_batch_left_unstored :
  let chain := fun _ : nat => flaky_report_node (30 * gwei) in
  let out := update_prices one_by_one chain [quote "GTCO" 48.75] [] fresh_keeper in
  let tx := {| tx_symbols := ["GTCO"]; tx_prices_wei := [0]; tx_nonce := 0;
               tx_gas := 350000; tx_gasPrice := 30 * gwei |} in
  let r := {| status := 1; gasUsed := 21000; blockNumber := 1 |} in
  call_batch <$> out.2 = [[("GTCO", 48.75%float)]]
  /\ call_sent <$> out.2 = [[tx]]
  /\ _send_transaction (chain 0%nat) tx = Some r
  /\ status r = 1
  /\ call_result <$> out.2 = [None]
  /\ last_prices out.1.1 !! "GTCO" = None
  /\ successful_updates (stats out.1.1) = 0
  /\ failed_updates (stats out.1.1) = 1.
Proof. vm_compute. repeat split; reflexivity. Qed.

(** C8: when the chain client fails on the batch (the receipt's status is not
    1, signing, sending or waiting raises, or the gas price or nonce query
    raises), [None] is returned; the keeper increments [failed_updates],
    leaves [last_prices] as it was, and goes on with the remaining batches,
    every one of which is handed to the chain client. *)
Theorem failed_batch_isolated
    (cfg : Config) (chain : nat -> Web3) (stocks : list (string * float))
    (n : nat) (i : Z) (rest : list Z) (k : Keeper) :
  (forall tx, match send_and_wait (chain n) tx with
              | Ok receipt => status receipt <> 1
              | Raise _ => True
              end)
  \/ raised (eth_gas_price (chain n) 0) = true
  \/ raised (get_transaction_count (chain n)) = true ->
  let batch := py_slice stocks i (i + BATCH_SIZE cfg) in
  let out := batch_update_prices (chain n) batch (MAX_GAS_PRICE_GWEI cfg) in
  let after := record_result k batch out.2 in
  let next := submit_loop cfg chain stocks (S n) rest after in
  out.2 = None
  /\ failed_updates (stats after) = failed_updates (stats k) + 1
  /\ successful_updates (stats after) = successful_updates (stats k)
  /\ total_stocks_updated (stats after) = total_stocks_updated (stats k)
  /\ last_prices after = last_prices k
  /\ submit_loop cfg chain stocks n (i :: rest) k
     = (next.1,
        {| call_batch := batch; call_sent := out.1; call_result := None |} :: next.2)
  /\ call_batch <$> next.2
     = (fun j => py_slice stocks j (j + BATCH_SIZE cfg)) <$> rest.
Proof.
  intros Hfail batch out after next.
  assert (out.2 = None) as Hout.
  { destruct Hfail as [Hsend|Hrpc].
    - by apply batch_update_prices_failed.
    - subst out. by rewrite batch_update_prices_rpc_error. }
  subst next after.
  rewrite submit_loop_step. cbv zeta. fold batch out. rewrite !Hout.
  do 6 (split; [reflexivity|]). apply submit_loop_batches.
Qed.

Lemma failed_batch_isolated_witness :
  call_result <$>
    (submit_loop one_by_one
       (fun n => match n with O => unreachable_node (30 * gwei)
                 | _ => steady_node (30 * gwei) 1 end)
       [("A", 100%float); ("B", 50%float)] 0 [0; 1] fresh_keeper).2
  = [None; Some {| status := 1; gasUsed := 21000; blockNumber := 1 |}].
Proof.
  pose proof (failed_batch_isolated one_by_one
                (fun n => match n with O => unreachable_node (30 * gwei)
                          | _ => steady_node (30 * gwei) 1 end)
                [("A", 100%float); ("B", 50%float)] 0 0 [1] fresh_keeper
                (or_introl (fun _ => I))) as (_ & _ & _ & _ & _ & Hloop & _).
  rewrite Hloop. reflexivity.
Defined.

(** C9: a cycle whose filter yields no candidate returns [True] without any
    call to the chain client: the keeper, its [last_prices] and every counter
    included, is what it was. *)
Theorem no_candidates_no_batches
    (cfg : Config) (chain : nat -> Web3) (scraped mock : list Stock) (k : Keeper) :
  filter_stocks (last_prices k) (MIN_PRICE_CHANGE_PERCENT cfg)
    (fetched_stocks scraped mock) = Ok [] ->
  update_prices cfg chain scraped mock k = (k, true, []).
Proof. intros Hnone. unfold update_prices. by rewrite Hnone. Qed.

Lemma no_candidates_no_batches_witness :
  update_prices default_config (fun _ => steady_node (30 * gwei) 1)
    [quote "A" 100.25] []
    {| last_prices := {[ "A" := 100%float ]}; stats := stats fresh_keeper |}
  = ({| last_prices := {[ "A" := 100%float ]}; stats := stats fresh_keeper |},
     true, []).
Proof.
  apply (no_candidates_no_batches default_config).
  vm_compute. reflexivity.
Defined.

(** ** Price source *)

Section ParserFacts.
Variable re_findall : string -> list (string * string * string).
Variable py_float : string -> option float.

Lemma parse_match_some m stock :
  parse_match py_float m = Some stock ->
  py_float (remove_commas m.1.2) = Some (price stock)
  /\ symbol stock = m.1.1
  /\ (50000 <? price stock)%float = false.
Proof.
  destruct m as [[sym g1] g2]. unfold parse_match. simpl.
  destruct (py_float (remove_commas g1)) as [p|]; [|done].
  destruct (if String.eqb g2 "" then _ else _) as [c|]; [|done].
  destruct (50000 <? p)%float eqn:Hhigh; [done|].
  by intros [= <-].
Qed.

Lemma parse_matches_elem matches stock :
  stock ∈ parse_matches py_float matches ->
  exists m, m ∈ matches /\ parse_match py_float m = Some stock.
Proof.
  induction matches as [|m rest IH]; simpl; [by intros ?%elem_of_nil|].
  destruct (parse_match py_float m) as [stock'|] eqn:Hm.
  - intros [->|Hin]%elem_of_cons.
    + exists m. split; [left|done].
    + destruct (IH Hin) as (m' & Hm' & Hp). exists m'. split; [by right|done].
  - intros Hin. destruct (IH Hin) as (m' & Hm' & Hp).
    exists m'. split; [by right|done].
Qed.

(** C10: every entry of the parser's output has a price of at most 50000; a
    match whose price parses above 50000 yields no entry.  ([float] returns
    no NaN on the digits the pattern's price group matches.) *)
Theorem parsed_price_at_most_50000 (data_string : string) (stock : Stock) :
  (forall data m x,
      m ∈ re_findall data -> py_float (remove_commas m.1.2) = Some x ->
      is_nan x = false) ->
  stock ∈ parse_ngx_string re_findall py_float data_string ->
  (price stock <=? 50000)%float = true
  /\ (50000 <? price stock)%float = false
  /\ (forall sym g1 g2 p,
         py_float (remove_commas g1) = Some p -> (50000 <? p)%float = true ->
         parse_match py_float (sym, g1, g2) = None).
Proof.
  intros Hnum Hin. unfold parse_ngx_string in Hin.
  apply parse_matches_elem in Hin as (m & Hm & Hparse).
  apply parse_match_some in Hparse as (Hp & _ & Hhigh).
  split; [|split].
  - apply float_not_lt_le; [by eapply Hnum|reflexivity|exact Hhigh].
  - exact Hhigh.
  - intros sym g1 g2 p Hp' Hhigh'. unfold parse_match. rewrite Hp'.
    destruct (if String.eqb g2 "" then _ else _); [|done]. by rewrite Hhigh'.
Qed.
End ParserFacts.

Lemma parsed_price_at_most_50000_witness :
  parse_ngx_string (fun _ => ticker_matches) float_of_digits "GTCO N48 % FGNBOND N100,000 % UBA N32 %"
    = [quote "GTCO" 48; quote "UBA" 32]
  /\ (price (quote "GTCO" 48) <=? 50000)%float = true.
Proof.
  split; [reflexivity|].
  apply (parsed_price_at_most_50000 (fun _ => ticker_matches) float_of_digits
           "GTCO N48 % FGNBOND N100,000 % UBA N32 %" (quote "GTCO" 48)).
  - intros _ m x Hm. unfold ticker_matches in Hm.
    repeat (apply elem_of_cons in Hm as [->|Hm]); [| | |by apply elem_of_nil in Hm];
      vm_compute; by intros [= <-].
  - vm_compute. apply list_elem_of_here.
Defined.

(** * Further properties of the keeper, the chain client and the price source *)

(** ** The filter *)

Lemma filter_stocks_filter prices min_change all_stocks :
  filter_stocks prices min_change all_stocks
  = Ok (candidate_pair <$> List.filter (is_candidate prices min_change) all_stocks).
Proof.
  induction all_stocks as [|stock rest IH]; [done|].
  unfold filter_stocks in *. simpl. rewrite IH. unfold is_candidate.
  fold (should_update_price prices min_change (symbol stock) (price stock)).
  destruct (should_update_price_total prices min_change (symbol stock) (price stock))
    as [b ->].
  simpl. by destruct b.
Qed.

Lemma filter_sublist {A} (f : A -> bool) (l : list A) : List.filter f l `sublist_of` l.
Proof.
  induction l as [|x l IH]; simpl; [done|].
  destruct (f x); by constructor.
Qed.

(** X1: the candidates of a cycle are the observations the test accepts, in
    the order of the observations: a subsequence of them, never longer. *)
Theorem filter_keeps_order prices min_change all_stocks :
  exists cands,
    filter_stocks prices min_change all_stocks = Ok cands
    /\ cands = candidate_pair <$> List.filter (is_candidate prices min_change) all_stocks
    /\ cands `sublist_of` (candidate_pair <$> all_stocks)
    /\ (length cands <= length all_stocks)%nat.
Proof.
  eexists. split; [apply filter_stocks_filter|]. split; [done|].
  assert (candidate_pair <$> List.filter (is_candidate prices min_change) all_stocks
          `sublist_of` candidate_pair <$> all_stocks) as Hsub
    by apply fmap_sublist, filter_sublist.
  split; [exact Hsub|].
  apply sublist_length in Hsub. rewrite !length_fmap in Hsub.
  by rewrite length_fmap.
Qed.

(** [x - x] is [+0] for a finite [x] and NaN otherwise. *)
Lemma SFsub_diag (x : spec_float) :
  SF64sub x x = S754_zero false \/ SF64sub x x = S754_nan.
Proof.
  unfold SF64sub, SFsub. destruct x as [[]|[]| |s m e]; simpl; auto.
  left. rewrite Z.sub_diag. reflexivity.
Qed.

Lemma float_leb_zero_false (m z : float) :
  (0 <? m)%float = true ->
  Prim2SF z = S754_zero false \/ Prim2SF z = S754_nan ->
  (m <=? z)%float = false.
Proof.
  rewrite FloatAxioms.ltb_spec, FloatAxioms.leb_spec. unfold SFltb, SFleb.
  change (Prim2SF 0) with (S754_zero false).
  intros Hpos [-> | ->].
  - rewrite (SFcompare_antisym (S754_zero false) (Prim2SF m)).
    destruct (SFcompare (S754_zero false) (Prim2SF m)) as [[]|]; simpl in *; congruence.
  - destruct (Prim2SF m); reflexivity.
Qed.

Lemma pct_same_price (p : float) :
  (p =? 0)%float = false ->
  Prim2SF (abs ((p - p) / p * 100))%float = S754_zero false
  \/ Prim2SF (abs ((p - p) / p * 100))%float = S754_nan.
Proof.
  rewrite FloatAxioms.eqb_spec. unfold SFeqb. intros Hnz.
  rewrite abs_spec, mul_spec, div_spec, sub_spec.
  change (Prim2SF 100) with (S754_finite false 7036874417766400 (-46)).
  change (Prim2SF 0) with (S754_zero false) in Hnz.
  destruct (SFsub_diag (Prim2SF p)) as [-> | ->].
  - destruct (Prim2SF p) as [s|s| |s m e]; simpl in *; auto; discriminate.
  - right. reflexivity.
Qed.

Lemma should_update_price_same
    (prices : gmap string float) (min_change : float) (sym : string) (p : float) :
  prices !! sym = Some p ->
  (p =? 0)%float = false ->
  (0 <? min_change)%float = true ->
  should_update_price prices min_change sym p = Ok false.
Proof.
  intros Hp Hnz Hmin.
  unfold should_update_price, should_update_price_with, py_truediv.
  rewrite Hp, Hnz. simpl.
  by rewrite (float_leb_zero_false min_change _ Hmin (pct_same_price p Hnz)).
Qed.

(** X2: an observation whose price is the stored one is not a candidate, as
    long as that price is not zero and the threshold is positive: an
    unchanged price is not published again. *)
Theorem same_price_not_republished
    (prices : gmap string float) (min_change : float)
    (all_stocks : list Stock) (stock : Stock) :
  stock ∈ all_stocks ->
  prices !! symbol stock = Some (price stock) ->
  (price stock =? 0)%float = false ->
  (0 <? min_change)%float = true ->
  should_update_price prices min_change (symbol stock) (price stock) = Ok false
  /\ exists cands,
       filter_stocks prices min_change all_stocks = Ok cands
       /\ candidate_pair stock ∉ cands.
Proof.
  intros Hin Hp Hnz Hmin.
  pose proof (should_update_price_same prices min_change _ _ Hp Hnz Hmin) as Hsame.
  split; [exact Hsame|].
  destruct (filter_stocks_elem prices min_change all_stocks) as (cands & Hc & Hmem).
  exists cands. split; [exact Hc|].
  intros (stock' & _ & _ & _ & Hup)%Hmem. congruence.
Qed.

Lemma same_price_not_republished_witness :
  filter_stocks {[ "A" := 100%float ]} 0.5 [quote "A" 100; quote "B" 50]
  = Ok [("B", 50%float)]
  /\ should_update_price {[ "A" := 100%float ]} 0.5 "A" 100 = Ok false.
Proof.
  split; [reflexivity|].
  apply (same_price_not_republished {[ "A" := 100%float ]} 0.5
           [quote "A" 100; quote "B" 50] (quote "A" 100));
    [apply list_elem_of_here|reflexivity|reflexivity|reflexivity].
Defined.

(** ** The submission loop and the cycle *)

Lemma store_prices_app (prices : gmap string float) l1 l2 :
  store_prices prices (l1 ++ l2) = store_prices (store_prices prices l1) l2.
Proof. unfold store_prices. apply foldl_app. Qed.

Lemma store_prices_lookup (prices : gmap string float) batch s :
  store_prices prices batch !! s = prices !! s
  \/ exists p, (s, p) ∈ batch /\ store_prices prices batch !! s = Some p.
Proof.
  revert prices. induction batch as [|[s' p'] batch IH]; intros prices; [by left|].
  change (store_prices prices ((s', p') :: batch))
    with (store_prices (<[s':=p']> prices) batch).
  destruct (IH (<[s':=p']> prices)) as [Heq|(p & Hin & Hp)].
  - rewrite Heq. destruct (decide (s' = s)) as [->|Hne].
    + right. exists p'. rewrite lookup_insert_eq. split; [left|done].
    + left. by rewrite lookup_insert_ne.
  - right. exists p. split; [by right|done].
Qed.

Lemma store_prices_NoDup (prices : gmap string float) batch s p :
  NoDup batch.*1 -> (s, p) ∈ batch -> store_prices prices batch !! s = Some p.
Proof.
  intros Hnd Hin. apply list_elem_of_split in Hin as (pre & post & ->).
  apply store_prices_last.
  rewrite fmap_app, fmap_cons in Hnd. apply NoDup_app in Hnd as (_ & _ & Hnd).
  by apply NoDup_cons in Hnd as [? _].
Qed.

Lemma py_slice_sublist {A} (l : list A) i j : py_slice l i j `sublist_of` l.
Proof.
  unfold py_slice. etrans; [apply sublist_take|apply sublist_drop].
Qed.

(** The keeper after the loop: the prices are the old ones overwritten by the
    batches that succeeded, in order, and each counter has moved by what the
    calls say. *)
Lemma submit_loop_effect cfg chain stocks n indices k :
  let out := submit_loop cfg chain stocks n indices k in
  let done_ := List.filter succeeded out.2 in
  last_prices out.1 = store_prices (last_prices k) (concat (call_batch <$> done_))
  /\ successful_updates (stats out.1)
     = successful_updates (stats k) + Z.of_nat (length done_)
  /\ failed_updates (stats out.1)
     = failed_updates (stats k) + Z.of_nat (length out.2 - length done_)
  /\ total_stocks_updated (stats out.1)
     = total_stocks_updated (stats k)
       + Z.of_nat (length (concat (call_batch <$> done_)))
  /\ total_updates (stats out.1) = total_updates (stats k)
  /\ length out.2 = length indices.
Proof.
  revert n k. induction indices as [|i rest IH]; intros n k.
  - simpl. repeat split; lia.
  - cbv zeta. rewrite submit_loop_step. cbv zeta.
    set (batch := py_slice stocks i (i + BATCH_SIZE cfg)).
    set (res := batch_update_prices (chain n) batch (MAX_GAS_PRICE_GWEI cfg)).
    specialize (IH (S n) (record_result k batch res.2)). cbv zeta in IH.
    destruct IH as (Hp & Hs & Hf & Ht & Hu & Hl).
    set (next := submit_loop cfg chain stocks (S n) rest (record_result k batch res.2)) in *.
    pose proof (filter_sublist succeeded next.2) as Hsub%sublist_length.
    destruct res.2 as [r|]; cbn [record_result] in *;
      simpl in Hp, Hs, Hf, Ht, Hu;
      cbn [fst snd List.filter succeeded call_result].
    + rewrite fmap_cons. cbn [concat call_batch length].
      rewrite store_prices_app, length_app, Hp, Hs, Hf, Ht, Hu, Hl.
      repeat split; lia.
    + cbn [length]. rewrite Hp, Hs, Hf, Ht, Hu, Hl. repeat split; lia.
Qed.

Lemma update_prices_unfold cfg chain scraped mock k :
  let cands := candidates_of cfg k (fetched_stocks scraped mock) in
  let out := submit_loop cfg chain cands 0
               (py_range 0 (Z.of_nat (length cands)) (BATCH_SIZE cfg)) k in
  update_prices cfg chain scraped mock k =
  match cands with
  | [] => (k, true, [])
  | _ :: _ =>
      if BATCH_SIZE cfg =? 0 then (count_failure k, false, [])
      else (count_cycle out.1, true, out.2)
  end.
Proof.
  cbv zeta. unfold update_prices. rewrite filter_stocks_filter.
  fold (candidates_of cfg k (fetched_stocks scraped mock)).
  destruct (candidates_of _ _ _) as [|c cands]; [done|].
  destruct (BATCH_SIZE cfg =? 0); [done|].
  by destruct (submit_loop _ _ _ _ _ _).
Qed.

Lemma batches_of_concat (l : list (string * float)) (b : Z) :
  1 <= b -> concat (batches_of l b) = l.
Proof.
  intros Hb. rewrite batches_of_chunks by done. rewrite concat_chunks.
  apply take_ge.
  pose proof (py_range_len_chunks (Z.of_nat (length l)) b ltac:(lia) Hb). lia.
Qed.

Lemma filter_all {A} (f : A -> bool) (l : list A) :
  (forall x, x ∈ l -> f x = true) -> List.filter f l = l.
Proof.
  induction l as [|x l IH]; intros H; simpl; [done|].
  rewrite (H x) by left. f_equal. apply IH. intros y Hy. apply H. by right.
Qed.

Lemma filter_none {A} (f : A -> bool) (l : list A) :
  (forall x, x ∈ l -> f x = false) -> List.filter f l = [].
Proof.
  induction l as [|x l IH]; intros H; simpl; [done|].
  rewrite (H x) by left. apply IH. intros y Hy. apply H. by right.
Qed.

Lemma elem_of_filter_bool {A} (f : A -> bool) (l : list A) x :
  x ∈ List.filter f l <-> x ∈ l /\ f x = true.
Proof. rewrite !list_elem_of_In. apply filter_In. Qed.

Lemma is_candidate_ext prices prices' min_change stock :
  prices !! symbol stock = prices' !! symbol stock ->
  is_candidate prices min_change stock = is_candidate prices' min_change stock.
Proof.
  intros Heq. unfold is_candidate, should_update_price, should_update_price_with.
  by rewrite Heq.
Qed.

Lemma NoDup_fmap_eq {A B} (f : A -> B) (l : list A) x y :
  NoDup (f <$> l) -> x ∈ l -> y ∈ l -> f x = f y -> x = y.
Proof.
  induction l as [|a l IH]; intros Hnd Hx Hy Hf; [by apply elem_of_nil in Hx|].
  rewrite fmap_cons in Hnd. apply NoDup_cons in Hnd as [Hna Hnd].
  apply elem_of_cons in Hx as [->|Hx]; apply elem_of_cons in Hy as [->|Hy].
  - done.
  - exfalso. apply Hna. rewrite Hf. by apply list_elem_of_fmap_2.
  - exfalso. apply Hna. rewrite <- Hf. by apply list_elem_of_fmap_2.
  - by apply IH.
Qed.

(** X3: after a cycle in which every call of the chain client returned a
    receipt, the same observations give no candidate, provided the symbols
    are distinct, no price is zero, the threshold is positive and the batch
    size is at least 1: a second cycle on the same data submits nothing. *)
Theorem full_success_cycle_is_stable
    (cfg : Config) (chain : nat -> Web3) (scraped mock : list Stock) (k : Keeper) :
  NoDup (symbol <$> fetched_stocks scraped mock) ->
  (forall stock, stock ∈ fetched_stocks scraped mock ->
                 (price stock =? 0)%float = false) ->
  (0 <? MIN_PRICE_CHANGE_PERCENT cfg)%float = true ->
  1 <= BATCH_SIZE cfg ->
  (forall c, c ∈ (update_prices cfg chain scraped mock k).2 ->
             is_Some (call_result c)) ->
  filter_stocks (last_prices (update_prices cfg chain scraped mock k).1.1)
    (MIN_PRICE_CHANGE_PERCENT cfg) (fetched_stocks scraped mock) = Ok [].
Proof.
  intros Hnd Hnz Hmin Hbs. rewrite update_prices_unfold. cbv zeta.
  set (all_stocks := fetched_stocks scraped mock) in *.
  set (prices := last_prices k).
  assert (candidates_of cfg k all_stocks
          = candidate_pair <$>
              List.filter (is_candidate prices (MIN_PRICE_CHANGE_PERCENT cfg)) all_stocks)
    as Hcands by done.
  destruct (candidates_of cfg k all_stocks) as [|c cs] eqn:Hc.
  { intros _. cbn [fst]. rewrite filter_stocks_filter. fold prices.
    by rewrite <- Hcands. }
  rewrite <- Hc in *. clear c cs Hc.
  set (cands := candidates_of cfg k all_stocks) in *.
  destruct (Z.eqb_spec (BATCH_SIZE cfg) 0) as [?|_]; [lia|].
  set (out := submit_loop cfg chain cands 0 _ k). simpl. intros Hall.
  destruct (submit_loop_effect cfg chain cands 0
              (py_range 0 (Z.of_nat (length cands)) (BATCH_SIZE cfg)) k)
    as (Hp & _). fold out in Hp.
  rewrite filter_all in Hp.
  2:{ intros c Hcin. specialize (Hall c Hcin). unfold succeeded.
      by destruct Hall as [r ->]. }
  assert (call_batch <$> out.2 = batches_of cands (BATCH_SIZE cfg)) as Hb
    by apply submit_loop_batches.
  rewrite Hb, batches_of_concat in Hp by done.
  rewrite filter_stocks_filter, filter_none; [done|].
  intros stock Hin. fold prices in Hp.
  assert (NoDup cands.*1) as Hndc.
  { rewrite Hcands, <- list_fmap_compose.
    apply (sublist_NoDup _ (symbol <$> all_stocks)); [exact Hnd|].
    apply (fmap_sublist symbol), filter_sublist. }
  destruct (is_candidate prices (MIN_PRICE_CHANGE_PERCENT cfg) stock) eqn:Hwas.
  - assert (candidate_pair stock ∈ cands) as Hmem.
    { rewrite Hcands. apply list_elem_of_fmap_2.
      by apply elem_of_filter_bool. }
    unfold is_candidate.
    rewrite (should_update_price_same _ _ _ (price stock)); [done| |by apply Hnz|done].
    rewrite Hp. by apply store_prices_NoDup.
  - rewrite <- Hwas. apply is_candidate_ext. rewrite Hp.
    apply store_prices_not_in. intros Hsym.
    rewrite Hcands, <- list_fmap_compose in Hsym.
    apply list_elem_of_fmap in Hsym as (stock' & Heq & [Hin' Hcand']%elem_of_filter_bool).
    simpl in Heq.
    assert (stock = stock') as <- by (by eapply (NoDup_fmap_eq symbol)).
    congruence.
Qed.

Lemma full_success_cycle_is_stable_witness :
  filter_stocks
    (last_prices
       (update_prices one_by_one (fun _ => steady_node (30 * gwei) 1)
          [quote "A" 100; quote "B" 50] [] fresh_keeper).1.1)
    0.5 [quote "A" 100; quote "B" 50] = Ok [].
Proof.
  apply (full_success_cycle_is_stable one_by_one
           (fun _ => steady_node (30 * gwei) 1)
           [quote "A" 100; quote "B" 50] [] fresh_keeper).
  - apply NoDup_cons. split; [|apply NoDup_singleton].
    intros [H|H]%elem_of_cons; [discriminate H|by apply elem_of_nil in H].
  - intros stock [->|[->|H%elem_of_nil]%elem_of_cons]%elem_of_cons;
      [reflexivity|reflexivity|done].
  - reflexivity.
  - simpl. lia.
  - intros c Hc. vm_compute in Hc.
    apply elem_of_cons in Hc as [->|Hc]; [by eexists|].
    apply elem_of_cons in Hc as [->|Hc]; [by eexists|].
    by apply elem_of_nil in Hc.
Defined.

Lemma candidates_nonempty cfg k all_stocks stock :
  stock ∈ all_stocks ->
  is_candidate (last_prices k) (MIN_PRICE_CHANGE_PERCENT cfg) stock = true ->
  candidates_of cfg k all_stocks <> [].
Proof.
  intros Hin Hc Hnil.
  assert (candidate_pair stock ∈ candidates_of cfg k all_stocks) as Hmem.
  { apply list_elem_of_fmap_2. by apply elem_of_filter_bool. }
  rewrite Hnil in Hmem. by apply elem_of_nil in Hmem.
Qed.

(** X4: a batch size that is not positive.  With at least one candidate, a
    batch size of 0 makes the cycle fail (line 161 divides by zero): it
    returns [False] and counts one failure; a negative batch size makes the
    range empty: the cycle returns [True] and counts itself.  In both cases
    the chain client is not called and no price is stored. *)
Theorem nonpositive_batch_size_submits_nothing
    (cfg : Config) (chain : nat -> Web3) (scraped mock : list Stock)
    (k : Keeper) (stock : Stock) :
  stock ∈ fetched_stocks scraped mock ->
  is_candidate (last_prices k) (MIN_PRICE_CHANGE_PERCENT cfg) stock = true ->
  (BATCH_SIZE cfg = 0 ->
     update_prices cfg chain scraped mock k = (count_failure k, false, []))
  /\ (BATCH_SIZE cfg < 0 ->
     update_prices cfg chain scraped mock k = (count_cycle k, true, [])).
Proof.
  intros Hin Hc.
  pose proof (candidates_nonempty cfg k _ stock Hin Hc) as Hne.
  rewrite update_prices_unfold. cbv zeta.
  destruct (candidates_of cfg k (fetched_stocks scraped mock)) as [|c cs]; [done|].
  split.
  - intros ->. reflexivity.
  - intros Hneg. destruct (Z.eqb_spec (BATCH_SIZE cfg) 0) as [?|_]; [lia|].
    unfold py_range, py_range_len.
    destruct (Z.ltb_spec 0 (BATCH_SIZE cfg)) as [?|_]; [lia|].
    destruct (Z.ltb_spec (BATCH_SIZE cfg) 0) as [_|?]; [|lia].
    replace (Z.to_nat _) with 0%nat; [reflexivity|].
    assert ((0 - Z.of_nat (length (c :: cs)) - BATCH_SIZE cfg - 1) / - BATCH_SIZE cfg < 1);
      [|lia].
    apply Z.div_lt_upper_bound; simpl length; lia.
Qed.

Lemma nonpositive_batch_size_submits_nothing_witness :
  update_prices
    {| MIN_PRICE_CHANGE_PERCENT := 0.5; BATCH_SIZE := 0; MAX_GAS_PRICE_GWEI := 50 |}
    (fun _ => steady_node (30 * gwei) 1) [quote "A" 100] [] fresh_keeper
  = (count_failure fresh_keeper, false, [])
  /\ update_prices
       {| MIN_PRICE_CHANGE_PERCENT := 0.5; BATCH_SIZE := -5; MAX_GAS_PRICE_GWEI := 50 |}
       (fun _ => steady_node (30 * gwei) 1) [quote "A" 100] [] fresh_keeper
     = (count_cycle fresh_keeper, true, []).
Proof.
  split.
  - apply (nonpositive_batch_size_submits_nothing
             {| MIN_PRICE_CHANGE_PERCENT := 0.5; BATCH_SIZE := 0;
                MAX_GAS_PRICE_GWEI := 50 |}
             (fun _ => steady_node (30 * gwei) 1) [quote "A" 100] [] fresh_keeper
             (quote "A" 100)); [apply list_elem_of_here|reflexivity|reflexivity].
  - apply (nonpositive_batch_size_submits_nothing
             {| MIN_PRICE_CHANGE_PERCENT := 0.5; BATCH_SIZE := -5;
                MAX_GAS_PRICE_GWEI := 50 |}
             (fun _ => steady_node (30 * gwei) 1) [quote "A" 100] [] fresh_keeper
             (quote "A" 100)); [apply list_elem_of_here|reflexivity|simpl; lia].
Defined.

Lemma batches_of_nil (b : Z) : 1 <= b -> batches_of [] b = [].
Proof.
  intros Hb. unfold batches_of, py_range.
  pose proof (py_range_len_chunks 0 b ltac:(lia) Hb) as Hm. simpl length.
  replace (py_range_len 0 (Z.of_nat 0) b) with 0%nat; [done|].
  change (Z.of_nat 0) with 0. nia.
Qed.

Lemma length_concat_filter {A B} (f : A -> list B) (p : A -> bool) (l : list A) :
  (length (concat (f <$> List.filter p l)) <= length (concat (f <$> l)))%nat.
Proof.
  induction l as [|x l IH]; [done|].
  cbn [List.filter]. destruct (p x);
    rewrite ?fmap_cons; cbn [concat]; rewrite ?length_app; lia.
Qed.

(** X5: accounting of a cycle with a positive batch size.  Every batch is
    counted once, as successful or as failed; [total_stocks_updated] grows by
    the sizes of the successful batches, at most the number of candidates;
    and the cycle counts itself exactly when it had candidates. *)
Theorem cycle_accounting
    (cfg : Config) (chain : nat -> Web3) (scraped mock : list Stock) (k : Keeper) :
  1 <= BATCH_SIZE cfg ->
  let cands := candidates_of cfg k (fetched_stocks scraped mock) in
  let out := update_prices cfg chain scraped mock k in
  let ok_calls := List.filter succeeded out.2 in
  out.1.2 = true
  /\ call_batch <$> out.2 = batches_of cands (BATCH_SIZE cfg)
  /\ successful_updates (stats out.1.1)
     = successful_updates (stats k) + Z.of_nat (length ok_calls)
  /\ failed_updates (stats out.1.1)
     = failed_updates (stats k) + Z.of_nat (length out.2 - length ok_calls)
  /\ total_stocks_updated (stats out.1.1)
     = total_stocks_updated (stats k)
       + Z.of_nat (length (concat (call_batch <$> ok_calls)))
  /\ total_stocks_updated (stats out.1.1)
     <= total_stocks_updated (stats k) + Z.of_nat (length cands)
  /\ total_updates (stats out.1.1)
     = total_updates (stats k) + (if cands is [] then 0 else 1).
Proof.
  intros Hbs. cbv zeta. rewrite update_prices_unfold. cbv zeta.
  destruct (candidates_of cfg k (fetched_stocks scraped mock)) as [|c cs] eqn:Hc.
  { simpl. rewrite batches_of_nil by done. repeat split; lia. }
  rewrite <- Hc. set (cands := candidates_of cfg k _).
  destruct (Z.eqb_spec (BATCH_SIZE cfg) 0) as [?|_]; [lia|].
  set (idx := py_range 0 (Z.of_nat (length cands)) (BATCH_SIZE cfg)).
  destruct (submit_loop_effect cfg chain cands 0 idx k)
    as (_ & Hs & Hf & Ht & Hu & _).
  assert (call_batch <$> (submit_loop cfg chain cands 0 idx k).2
          = batches_of cands (BATCH_SIZE cfg)) as Hb
    by apply submit_loop_batches.
  set (out := submit_loop cfg chain cands 0 idx k) in *.
  cbn [fst snd count_cycle stats last_prices successful_updates failed_updates
       total_stocks_updated total_updates].
  split; [done|]. split; [exact Hb|]. split; [exact Hs|]. split; [exact Hf|].
  split; [exact Ht|]. split; [|lia].
  rewrite Ht. apply Zplus_le_compat_l, inj_le.
  etrans; [apply length_concat_filter|].
  by rewrite Hb, batches_of_concat.
Qed.

Lemma cycle_accounting_witness :
  successful_updates
    (stats (update_prices one_by_one
              (fun n => match n with O => unreachable_node (30 * gwei)
                        | _ => steady_node (30 * gwei) 1 end)
              [quote "A" 100; quote "B" 50] [] fresh_keeper).1.1) = 1
  /\ failed_updates
       (stats (update_prices one_by_one
                 (fun n => match n with O => unreachable_node (30 * gwei)
                           | _ => steady_node (30 * gwei) 1 end)
                 [quote "A" 100; quote "B" 50] [] fresh_keeper).1.1) = 1.
Proof.
  pose proof (cycle_accounting one_by_one
                (fun n => match n with O => unreachable_node (30 * gwei)
                          | _ => steady_node (30 * gwei) 1 end)
                [quote "A" 100; quote "B" 50] [] fresh_keeper
                ltac:(simpl; lia)) as (_ & _ & Hs & Hf & _).
  split; [rewrite Hs|rewrite Hf]; reflexivity.
Defined.

Lemma submit_loop_call_batch cfg chain stocks n indices k c :
  c ∈ (submit_loop cfg chain stocks n indices k).2 ->
  call_batch c `sublist_of` stocks.
Proof.
  intros Hc. apply (list_elem_of_fmap_2 call_batch) in Hc.
  rewrite submit_loop_batches in Hc.
  apply list_elem_of_fmap in Hc as (i & -> & _). apply py_slice_sublist.
Qed.

Lemma submit_loop_stored cfg chain stocks n indices k s p :
  (s, p) ∈ concat (call_batch <$>
                     List.filter succeeded (submit_loop cfg chain stocks n indices k).2) ->
  (s, p) ∈ stocks.
Proof.
  intros Hin. apply list_elem_of_In, in_concat in Hin as (batch & Hbatch & Hsp).
  apply list_elem_of_In in Hbatch, Hsp.
  apply list_elem_of_fmap in Hbatch as (c & -> & [Hc _]%elem_of_filter_bool).
  apply submit_loop_call_batch in Hc. by eapply sublist_subseteq.
Qed.

Lemma candidates_of_elem cfg k all_stocks s p :
  (s, p) ∈ candidates_of cfg k all_stocks ->
  exists stock, stock ∈ all_stocks /\ symbol stock = s /\ price stock = p
    /\ is_candidate (last_prices k) (MIN_PRICE_CHANGE_PERCENT cfg) stock = true.
Proof.
  intros (stock & [= -> ->] & [Hin Hc]%elem_of_filter_bool)%list_elem_of_fmap.
  eauto.
Qed.

Lemma update_prices_lookup cfg chain scraped mock k s :
  last_prices (update_prices cfg chain scraped mock k).1.1 !! s = last_prices k !! s
  \/ exists stock,
       stock ∈ fetched_stocks scraped mock /\ symbol stock = s
       /\ is_candidate (last_prices k) (MIN_PRICE_CHANGE_PERCENT cfg) stock = true
       /\ last_prices (update_prices cfg chain scraped mock k).1.1 !! s
          = Some (price stock).
Proof.
  rewrite update_prices_unfold. cbv zeta.
  destruct (candidates_of cfg k (fetched_stocks scraped mock)) as [|c cs] eqn:Hc;
    [by left|].
  rewrite <- Hc. destruct (BATCH_SIZE cfg =? 0); [by left|].
  set (cands := candidates_of cfg k _).
  set (idx := py_range 0 (Z.of_nat (length cands)) (BATCH_SIZE cfg)).
  destruct (submit_loop_effect cfg chain cands 0 idx k) as (Hp & _).
  cbn [fst snd count_cycle last_prices]. rewrite Hp.
  destruct (store_prices_lookup (last_prices k)
              (concat (call_batch <$>
                 List.filter succeeded (submit_loop cfg chain cands 0 idx k).2)) s)
    as [Heq|(p & Hin & Hlook)]; [by left|].
  right. apply submit_loop_stored in Hin.
  apply candidates_of_elem in Hin as (stock & Hin & <- & <- & Hcand).
  exists stock. by rewrite Hlook.
Qed.

(** X6: where a stored price comes from.  After a cycle the price stored for
    a symbol is the one stored before, or the price of an observation of that
    symbol that was a candidate; so a symbol once stored stays stored, and a
    symbol that was not observed keeps its price. *)
Theorem price_memory_provenance
    (cfg : Config) (chain : nat -> Web3) (scraped mock : list Stock)
    (k : Keeper) (s : string) :
  let after := (update_prices cfg chain scraped mock k).1.1 in
  (last_prices after !! s = last_prices k !! s
   \/ exists stock,
        stock ∈ fetched_stocks scraped mock /\ symbol stock = s
        /\ is_candidate (last_prices k) (MIN_PRICE_CHANGE_PERCENT cfg) stock = true
        /\ last_prices after !! s = Some (price stock))
  /\ (is_Some (last_prices k !! s) -> is_Some (last_prices after !! s))
  /\ (s ∉ symbol <$> fetched_stocks scraped mock ->
      last_prices after !! s = last_prices k !! s).
Proof.
  cbv zeta. pose proof (update_prices_lookup cfg chain scraped mock k s) as Hprov.
  split; [exact Hprov|]. split.
  - intros Hsome. destruct Hprov as [-> | (stock & _ & _ & _ & ->)]; [done|eauto].
  - intros Hnot. destruct Hprov as [Heq | (stock & Hin & <- & _)]; [done|].
    exfalso. apply Hnot. by apply list_elem_of_fmap_2.
Qed.

Lemma exc_map_length {A B} (f : A -> exc B) (l : list A) (l' : list B) :
  exc_map f l = Ok l' -> length l' = length l.
Proof.
  revert l'. induction l as [|x l IH]; intros l'; simpl.
  - by intros [= <-].
  - destruct (f x) as [y|e]; simpl; [|done].
    destruct (exc_map f l) as [ys|e]; simpl; [|done].
    intros [= <-]. simpl. f_equal. by apply IH.
Qed.

Lemma from_wei_passes_gate (gp max_gwei : Z) (current_gas : Q) :
  from_wei gp gwei = Ok current_gas ->
  gas_too_high current_gas max_gwei = false ->
  0 <= gp <= max_gwei * gwei.
Proof.
  unfold from_wei. destruct (Z.eqb_spec gp 0) as [->|Hne].
  - intros [= <-]. unfold gas_too_high.
    rewrite negb_false_iff, Qle_bool_iff.
    unfold Qle, inject_Z, gwei. simpl. lia.
  - destruct (Z.ltb_spec gp 0); simpl; [done|].
    destruct (MAX_WEI <? gp); [done|]. intros [= <-] Hlow.
    destruct (Z.lt_ge_cases (max_gwei * gwei) gp) as [Hhigh|Hle]; [|lia].
    apply gas_too_high_spec in Hhigh. congruence.
Qed.

(** X7: what a sent transaction carries.  [batch_update_prices] sends at most
    one transaction, and only with a gas price read at the gate that is not
    above the maximum; the transaction names the symbols of the batch in
    order, with one converted price per symbol, the nonce and the gas price
    the node returned. *)
Theorem sent_transaction_payload
    (w3 : Web3) (batch : list (string * float)) (max_gas_price_gwei : Z) (tx : Tx) :
  tx ∈ (batch_update_prices w3 batch max_gas_price_gwei).1 ->
  (batch_update_prices w3 batch max_gas_price_gwei).1 = [tx]
  /\ tx_symbols tx = batch.*1
  /\ exc_map (to_wei_ether w3) batch.*2 = Ok (tx_prices_wei tx)
  /\ length (tx_prices_wei tx) = length (tx_symbols tx)
  /\ (exists gp, eth_gas_price w3 0 = Ok gp /\ 0 <= gp <= max_gas_price_gwei * gwei)
  /\ get_transaction_count w3 = Ok (tx_nonce tx)
  /\ eth_gas_price w3 1 = Ok (tx_gasPrice tx).
Proof.
  unfold batch_update_prices.
  destruct batch as [|sp batch]; [by intros ?%elem_of_nil|].
  change (map snd (sp :: batch)) with ((sp :: batch).*2).
  change (map fst (sp :: batch)) with ((sp :: batch).*1).
  destruct (exc_map _ _) as [prices_wei|e] eqn:Hwei; simpl; [|by intros ?%elem_of_nil].
  destruct (eth_gas_price w3 0) as [gp|e]; simpl; [|by intros ?%elem_of_nil].
  destruct (from_wei gp gwei) as [current_gas|e] eqn:Hfw; simpl;
    [|by intros ?%elem_of_nil].
  destruct (gas_too_high _ _) eqn:Hgate; [by intros ?%elem_of_nil|].
  destruct (get_transaction_count w3) as [nonce|e]; simpl; [|by intros ?%elem_of_nil].
  destruct (encode_call w3 _ _) as [[]|e]; simpl; [|by intros ?%elem_of_nil].
  destruct (eth_gas_price w3 1) as [gp'|e]; simpl; [|by intros ?%elem_of_nil].
  intros ->%list_elem_of_singleton. simpl.
  apply exc_map_length in Hwei as Hlen. rewrite !length_fmap in Hlen.
  repeat split; try done.
  - simpl. rewrite length_fmap. simpl in Hlen. lia.
  - exists gp. split; [done|]. by eapply from_wei_passes_gate.
Qed.

Lemma sent_transaction_payload_witness :
  (batch_update_prices (steady_node (30 * gwei) 1) [("GTCO", 48.75%float)] 50).1
  = [{| tx_symbols := ["GTCO"]; tx_prices_wei := [0]; tx_nonce := 0;
        tx_gas := 350000; tx_gasPrice := 30 * gwei |}].
Proof.
  apply (sent_transaction_payload (steady_node (30 * gwei) 1)
           [("GTCO", 48.75%float)] 50).
  vm_compute. apply list_elem_of_here.
Defined.

(** X8: a mined transaction reported as a failure.  When the transaction is
    sent and its receipt has status 1, but reading the gas price for the cost
    report raises, [batch_update_prices] returns [None]: the keeper counts
    the batch as failed and stores none of its prices. *)
Theorem mined_batch_reported_failed
    (w3 : Web3) (batch : list (string * float)) (max_gas_price_gwei : Z)
    (k : Keeper) (tx : Tx) (r : Receipt) :
  tx ∈ (batch_update_prices w3 batch max_gas_price_gwei).1 ->
  send_and_wait w3 tx = Ok r ->
  status r = 1 ->
  raised (eth_gas_price w3 2) = true ->
  (batch_update_prices w3 batch max_gas_price_gwei).2 = None
  /\ record_result k batch (batch_update_prices w3 batch max_gas_price_gwei).2
     = count_failure k.
Proof.
  intros Htx Hsend Hst Hgp.
  assert ((batch_update_prices w3 batch max_gas_price_gwei).2 = None) as Hnone.
  { revert Htx. unfold batch_update_prices.
    destruct batch as [|sp batch]; [done|].
    destruct (exc_map _ _) as [prices_wei|e]; simpl; [|done].
    destruct (eth_gas_price w3 0) as [gp|e]; simpl; [|done].
    destruct (from_wei gp gwei) as [current_gas|e]; simpl; [|done].
    destruct (gas_too_high _ _); [done|].
    destruct (get_transaction_count w3) as [nonce|e]; simpl; [|done].
    destruct (encode_call w3 _ _) as [[]|e]; simpl; [|done].
    destruct (eth_gas_price w3 1) as [gp'|e]; simpl; [|done].
    intros <-%list_elem_of_singleton.
    unfold _send_transaction. rewrite Hsend, Hst. simpl. rewrite Hst. simpl.
    by destruct (eth_gas_price w3 2). }
  split; [exact Hnone|]. by rewrite Hnone.
Qed.

Lemma mined_batch_reported_failed_witness :
  record_result fresh_keeper [("GTCO", 48.75%float)]
    (batch_update_prices (flaky_report_node (30 * gwei)) [("GTCO", 48.75%float)] 50).2
  = count_failure fresh_keeper.
Proof.
  apply (mined_batch_reported_failed (flaky_report_node (30 * gwei))
           [("GTCO", 48.75%float)] 50 fresh_keeper
           {| tx_symbols := ["GTCO"]; tx_prices_wei := [0]; tx_nonce := 0;
              tx_gas := 350000; tx_gasPrice := 30 * gwei |}
           {| status := 1; gasUsed := 21000; blockNumber := 1 |}).
  - vm_compute. apply list_elem_of_here.
  - reflexivity.
  - reflexivity.
  - reflexivity.
Defined.

Lemma update_prices_call_batch cfg chain scraped mock k c :
  c ∈ (update_prices cfg chain scraped mock k).2 ->
  call_batch c `sublist_of` candidates_of cfg k (fetched_stocks scraped mock).
Proof.
  rewrite update_prices_unfold. cbv zeta.
  destruct (candidates_of cfg k (fetched_stocks scraped mock)) as [|sp cs] eqn:Hc;
    [by intros ?%elem_of_nil|].
  rewrite <- Hc. destruct (BATCH_SIZE cfg =? 0); [by intros ?%elem_of_nil|].
  apply submit_loop_call_batch.
Qed.



(** ** The price source *)

Section ScraperFacts.
Variable re_findall : string -> list (string * string * string).
Variable py_float : string -> option float.
Variable soup_get_text : string -> string.
Variable session_get : string -> exc HttpResponse.
Variable str_upper : string -> string.

Local Notation "'extract'" := (extract_from_html re_findall py_float soup_get_text).
Local Notation "'fetch_from''" := (fetch_from re_findall py_float soup_get_text session_get).
Local Notation "'fetched'" := (fetch_ngx_data re_findall py_float soup_get_text session_get).
Local Notation "'page'" := (page_stocks re_findall py_float soup_get_text session_get).

Lemma parse_matches_symbols matches :
  symbol <$> parse_matches py_float matches `sublist_of` (fun m => m.1.1) <$> matches.
Proof.
  induction matches as [|m rest IH]; [done|].
  cbn [parse_matches]. destruct (parse_match py_float m) as [stock|] eqn:Hm.
  - apply parse_match_some in Hm as (_ & Hsym & _).
    rewrite !fmap_cons, Hsym. by constructor.
  - rewrite fmap_cons. by constructor.
Qed.

Lemma parse_ngx_string_not_above data stock :
  stock ∈ parse_ngx_string re_findall py_float data ->
  (50000 <? price stock)%float = false.
Proof.
  intros (m & _ & Hm)%parse_matches_elem. by apply parse_match_some in Hm as (_ & _ & ?).
Qed.

Lemma extract_from_html_not_above html stock :
  stock ∈ extract html -> (50000 <? price stock)%float = false.
Proof.
  unfold extract_from_html. destruct (str_contains _ _);
    [destruct (str_find _ _)|]; apply parse_ngx_string_not_above.
Qed.

Lemma fetch_from_cons url rest :
  fetch_from' (url :: rest)
  = match page url with
    | [] => fetch_from' rest
    | (_ :: _) as stocks => stocks
    end.
Proof.
  simpl. unfold page_stocks. destruct (session_get url) as [response|e]; [|done].
  by destruct (status_code response =? 200).
Qed.

Lemma fetch_from_first pre url post :
  (forall u, u ∈ pre -> page u = []) ->
  page url <> [] ->
  fetch_from' (pre ++ url :: post) = page url.
Proof.
  intros Hpre Hgood. induction pre as [|u pre IH]; simpl app.
  - rewrite fetch_from_cons. by destruct (page url).
  - rewrite fetch_from_cons, (Hpre u) by left. apply IH.
    intros u' Hu'. apply Hpre. by right.
Qed.

Lemma fetch_from_none urls :
  fetch_from' urls = [] <-> forall u, u ∈ urls -> page u = [].
Proof.
  induction urls as [|u urls IH].
  - split; [|done]. by intros _ u ?%elem_of_nil.
  - rewrite fetch_from_cons. split.
    + intros Hnil u' [->|Hu']%elem_of_cons.
      * by destruct (page u).
      * destruct (page u); [|done]. by apply IH.
    + intros Hall. rewrite (Hall u) by left. apply IH.
      intros u' Hu'. apply Hall. by right.
Qed.

Lemma fetch_from_elem urls stock :
  stock ∈ fetch_from' urls -> exists u, u ∈ urls /\ stock ∈ page u.
Proof.
  induction urls as [|u urls IH]; [by intros ?%elem_of_nil|].
  rewrite fetch_from_cons. destruct (page u) as [|s ss] eqn:Hu.
  - intros (u' & Hu' & Hs)%IH. exists u'. split; [by right|done].
  - intros Hin. exists u. split; [left|]. by rewrite Hu.
Qed.
Lemma fetch_ngx_data_not_above stock :
  stock ∈ fetched -> (50000 <? price stock)%float = false.
Proof.
  intros (u & _ & Hs)%fetch_from_elem. unfold page_stocks in Hs.
  destruct (session_get u) as [response|e]; [|by apply elem_of_nil in Hs].
  destruct (status_code response =? 200); [|by apply elem_of_nil in Hs].
  by eapply extract_from_html_not_above.
Qed.

(** X9: the parser neither invents nor reorders: the symbols of its output
    are a subsequence of the symbols of the matches, and every entry is a
    match, with the match's symbol and the float its price text (commas
    removed) converts to. *)
Theorem parsed_entries_follow_matches (data_string : string) :
  symbol <$> parse_ngx_string re_findall py_float data_string
    `sublist_of` (fun m => m.1.1) <$> re_findall data_string
  /\ (length (parse_ngx_string re_findall py_float data_string)
      <= length (re_findall data_string))%nat
  /\ (forall stock,
        stock ∈ parse_ngx_string re_findall py_float data_string ->
        exists m, m ∈ re_findall data_string /\ symbol stock = m.1.1
          /\ py_float (remove_commas m.1.2) = Some (price stock)).
Proof.
  pose proof (parse_matches_symbols (re_findall data_string)) as Hsub.
  split; [exact Hsub|]. split.
  - apply sublist_length in Hsub. by rewrite !length_fmap in Hsub.
  - intros stock (m & Hm & Hp)%parse_matches_elem.
    apply parse_match_some in Hp as (Hprice & Hsym & _). eauto.
Qed.

(** X10: which page feeds the keeper.  [fetch_ngx_data] returns the stocks of
    the first URL, in the order of [URLS_TO_TRY], whose page gives any, and
    the keeper then uses them; it returns the empty list exactly when no URL
    gives any, and the keeper then uses the mock quotes. *)
Theorem fetch_uses_first_page_with_data (mock : list Stock) :
  (forall pre url post,
      URLS_TO_TRY = pre ++ url :: post ->
      (forall u, u ∈ pre -> page u = []) -> page url <> [] ->
      fetched = page url /\ fetched_stocks fetched mock = page url)
  /\ (fetched = [] <-> forall u, u ∈ URLS_TO_TRY -> page u = [])
  /\ (fetched = [] -> fetched_stocks fetched mock = mock).
Proof.
  split; [|split].
  - intros pre url post Hurls Hpre Hgood.
    assert (fetched = page url) as Heq.
    { unfold fetch_ngx_data. rewrite Hurls. by apply fetch_from_first. }
    split; [done|]. rewrite Heq. unfold fetched_stocks.
    by destruct (page url).
  - apply fetch_from_none.
  - by intros ->.
Qed.

(** X11: from the scraper to the chain.  When the scraper returned data, no
    batch handed to the chain client holds a price above 50000, and a price
    stored by the cycle is the one stored before or is not above 50000. *)
Theorem scraped_price_above_50000_never_submitted
    (cfg : Config) (chain : nat -> Web3) (mock : list Stock) (k : Keeper) :
  fetched <> [] ->
  let out := update_prices cfg chain fetched mock k in
  (forall c s p, c ∈ out.2 -> (s, p) ∈ call_batch c -> (50000 <? p)%float = false)
  /\ (forall s p, last_prices out.1.1 !! s = Some p ->
        last_prices k !! s = Some p \/ (50000 <? p)%float = false).
Proof.
  intros Hne. cbv zeta.
  assert (fetched_stocks fetched mock = fetched) as Hfeed.
  { unfold fetched_stocks. by destruct fetched. }
  split.
  - intros c s p Hc Hin. apply update_prices_call_batch in Hc.
    apply sublist_subseteq in Hc. apply Hc in Hin.
    apply candidates_of_elem in Hin as (stock & Hstock & _ & <- & _).
    rewrite Hfeed in Hstock. by apply fetch_ngx_data_not_above.
  - intros s p Hlook.
    destruct (update_prices_lookup cfg chain fetched mock k s)
      as [Heq|(stock & Hstock & _ & _ & Hnew)].
    + left. by rewrite <- Heq.
    + right. rewrite Hnew in Hlook. injection Hlook as <-.
      rewrite Hfeed in Hstock. by apply fetch_ngx_data_not_above.
Qed.
End ScraperFacts.

Lemma fetch_uses_first_page_with_data_witness :
  fetch_ngx_data (fun _ => ticker_matches) float_of_digits (fun html => html) ticker_site
  = [quote "GTCO" 48; quote "UBA" 32].
Proof.
  destruct (fetch_uses_first_page_with_data (fun _ => ticker_matches) float_of_digits
              (fun html => html) ticker_site []) as (Hfirst & _).
  destruct (Hfirst ["https://ngxgroup.com/exchange/data/"%string]
              "https://ngxgroup.com/exchange/data/equities-price-list/"%string
              ["https://ngxgroup.com/exchange/data/data-library/"%string])
    as [Hfetch _].
  - reflexivity.
  - intros u [->|H%elem_of_nil]%elem_of_cons; [reflexivity|done].
  - vm_compute. discriminate.
  - rewrite Hfetch. vm_compute. reflexivity.
Defined.

Lemma scraped_price_above_50000_never_submitted_witness :
  call_batch <$>
    (update_prices default_config (fun _ => steady_node (30 * gwei) 1)
       (fetch_ngx_data (fun _ => ticker_matches) float_of_digits (fun html => html)
          ticker_site)
       [] fresh_keeper).2
  = [[("GTCO", 48%float); ("UBA", 32%float)]]
  /\ forall c s p,
       c ∈ (update_prices default_config (fun _ => steady_node (30 * gwei) 1)
              (fetch_ngx_data (fun _ => ticker_matches) float_of_digits
                 (fun html => html) ticker_site)
              [] fresh_keeper).2 ->
       (s, p) ∈ call_batch c -> (50000 <? p)%float = false.
Proof.
  split; [vm_compute; reflexivity|].
  apply (scraped_price_above_50000_never_submitted (fun _ => ticker_matches)
           float_of_digits (fun html => html) ticker_site default_config
           (fun _ => steady_node (30 * gwei) 1) [] fresh_keeper).
  vm_compute. discriminate.
Defined.

Section LookupFacts.
Variable str_upper : string -> string.

Local Notation "'upper_symbol'" := (fun s : Stock => str_upper (symbol s)).

Lemma first_match_Some all_stocks sym stock :
  first_match str_upper all_stocks sym = Some stock ->
  exists pre post,
    all_stocks = pre ++ stock :: post
    /\ str_upper (symbol stock) = str_upper sym
    /\ forall s, s ∈ pre -> str_upper (symbol s) <> str_upper sym.
Proof.
  induction all_stocks as [|s rest IH]; simpl; [done|].
  destruct (String.eqb_spec (str_upper (symbol s)) (str_upper sym)) as [Heq|Hne].
  - intros [= <-]. exists [], rest. split; [done|]. split; [done|].
    by intros s' ?%elem_of_nil.
  - intros (pre & post & -> & Hm & Hpre)%IH. exists (s :: pre), post.
    split; [done|]. split; [done|].
    intros s' [->|Hs']%elem_of_cons; [done|by apply Hpre].
Qed.

Lemma first_match_None all_stocks sym :
  first_match str_upper all_stocks sym = None <->
  forall s, s ∈ all_stocks -> str_upper (symbol s) <> str_upper sym.
Proof.
  induction all_stocks as [|s rest IH]; simpl.
  - split; [|done]. by intros _ s ?%elem_of_nil.
  - destruct (String.eqb_spec (str_upper (symbol s)) (str_upper sym)) as [Heq|Hne].
    + split; [done|]. intros Hall. exfalso. by apply (Hall s); [left|].
    + rewrite IH. split.
      * intros Hall s' [->|Hs']%elem_of_cons; [done|by apply Hall].
      * intros Hall s' Hs'. apply Hall. by right.
Qed.

Lemma first_match_unique all_stocks sym stock :
  NoDup (upper_symbol <$> all_stocks) ->
  stock ∈ all_stocks -> str_upper (symbol stock) = str_upper sym ->
  first_match str_upper all_stocks sym = Some stock.
Proof.
  induction all_stocks as [|s rest IH]; intros Hnd Hin Hm;
    [by apply elem_of_nil in Hin|].
  rewrite fmap_cons in Hnd. apply NoDup_cons in Hnd as [Hns Hnd]. simpl.
  destruct (String.eqb_spec (str_upper (symbol s)) (str_upper sym)) as [Heq|Hne].
  - apply elem_of_cons in Hin as [->|Hin]; [done|]. exfalso. apply Hns.
    rewrite Heq, <- Hm. by apply (list_elem_of_fmap_2 upper_symbol).
  - apply elem_of_cons in Hin as [->|Hin]; [done|]. by apply IH.
Qed.

Lemma stock_dict_of_snoc all_stocks s :
  stock_dict_of str_upper (all_stocks ++ [s])
  = <[str_upper (symbol s) := s]> (stock_dict_of str_upper all_stocks).
Proof. unfold stock_dict_of. by rewrite foldl_app. Qed.

Lemma stock_dict_of_lookup all_stocks sym :
  stock_dict_of str_upper all_stocks !! str_upper sym
  = first_match str_upper (reverse all_stocks) sym.
Proof.
  induction all_stocks as [|s rest IH] using rev_ind; [done|].
  rewrite stock_dict_of_snoc, reverse_app. simpl.
  destruct (String.eqb_spec (str_upper (symbol s)) (str_upper sym)) as [Heq|Hne].
  - rewrite Heq. apply lookup_insert_eq.
  - by rewrite lookup_insert_ne.
Qed.

Lemma lookup_all_lookup all_stocks symbols sym :
  lookup_all str_upper all_stocks symbols !! sym
  = if decide (sym ∈ symbols)
    then Some (stock_dict_of str_upper all_stocks !! str_upper sym)
    else None.
Proof.
  unfold lookup_all. induction symbols as [|s rest IH] using rev_ind.
  - cbn [foldl]. rewrite lookup_empty.
    case_decide as Hin; [by apply elem_of_nil in Hin|reflexivity].
  - rewrite foldl_app. cbn [foldl]. destruct (decide (s = sym)) as [->|Hne].
    + rewrite lookup_insert_eq, decide_True; [done|].
      apply elem_of_app. right. apply list_elem_of_here.
    + rewrite lookup_insert_ne, IH by done.
      destruct (decide (sym ∈ rest)) as [Hin|Hnin].
      * rewrite decide_True; [done|]. apply elem_of_app. by left.
      * rewrite decide_False; [done|].
        intros [?|[?|?%elem_of_nil]%elem_of_cons]%elem_of_app; done.
Qed.

(** X12: the two lookups of the scraper on the same list of stocks.  For a
    requested symbol [get_multiple_stocks] gives the last stock whose symbol
    matches it without regard to case (the first one of the reversed list),
    where [get_stock_price] gives the first; a symbol that was not requested
    has no entry; and when the upper-cased symbols of the list are distinct
    the two agree. *)
Theorem scraper_lookups_first_and_last
    (all_stocks : list Stock) (symbols : list string) (sym : string) :
  (sym ∈ symbols ->
     lookup_all str_upper all_stocks symbols !! sym
     = Some (first_match str_upper (reverse all_stocks) sym))
  /\ (sym ∉ symbols -> lookup_all str_upper all_stocks symbols !! sym = None)
  /\ (sym ∈ symbols -> NoDup (upper_symbol <$> all_stocks) ->
      lookup_all str_upper all_stocks symbols !! sym
      = Some (first_match str_upper all_stocks sym)).
Proof.
  rewrite lookup_all_lookup, stock_dict_of_lookup. split; [|split].
  - intros Hin. by rewrite decide_True.
  - intros Hnin. by rewrite decide_False.
  - intros Hin Hnd. rewrite decide_True by done. f_equal.
    destruct (first_match str_upper all_stocks sym) as [stock|] eqn:Hfirst.
    + apply first_match_Some in Hfirst as (pre & post & -> & Hm & _).
      apply first_match_unique; [| |done].
      2:{ apply elem_of_reverse_2, elem_of_app. right. apply list_elem_of_here. }
      by rewrite fmap_reverse, reverse_Permutation.
    + apply first_match_None. intros s Hs.
      apply (proj1 (elem_of_reverse s all_stocks)) in Hs.
      by apply (proj1 (first_match_None all_stocks sym) Hfirst).
Qed.
End LookupFacts.

Lemma scraper_lookups_first_and_last_witness :
  lookup_all (fun s => s) [quote "GTCO" 48; quote "GTCO" 49] ["GTCO"] !! "GTCO"
  = Some (Some (quote "GTCO" 49))
  /\ first_match (fun s => s) [quote "GTCO" 48; quote "GTCO" 49] "GTCO"
     = Some (quote "GTCO" 48).
Proof.
  split; [|reflexivity].
  destruct (scraper_lookups_first_and_last (fun s => s)
              [quote "GTCO" 48; quote "GTCO" 49] ["GTCO"] "GTCO") as (Hlast & _).
  rewrite Hlast; [reflexivity|apply list_elem_of_here].
Defined.

(** ** Configuration and status *)

(** X13: [validate] returns [True] exactly when the three settings are set
    and the ABI file exists; otherwise it reports every missing item, one
    line each, not only the first. *)
Theorem validate_reports_every_missing_setting (abi_path : string) (env : Environment) :
  (validate abi_path env = inr true <->
     is_unset (RPC_URL env) = false /\ is_unset (PRIVATE_KEY env) = false
     /\ is_unset (CONTRACT_ADDRESS env) = false /\ abi_file_exists env = true)
  /\ (forall message, validate abi_path env = inl message ->
        message
        = ("Configuration errors:" ++ newline
           ++ String.concat newline
                (map (fun e => "  - " ++ e) (config_errors abi_path env)))%string)
  /\ length (config_errors abi_path env)
     = (Nat.b2n (is_unset (RPC_URL env)) + Nat.b2n (is_unset (PRIVATE_KEY env))
        + Nat.b2n (is_unset (CONTRACT_ADDRESS env))
        + Nat.b2n (negb (abi_file_exists env)))%nat
  /\ ("RPC_URL not set in .env file"%string ∈ config_errors abi_path env
      <-> is_unset (RPC_URL env) = true)
  /\ ("PRIVATE_KEY not set in .env file"%string ∈ config_errors abi_path env
      <-> is_unset (PRIVATE_KEY env) = true)
  /\ ("ORACLE_CONTRACT_ADDRESS not set in .env file (deploy contract first)"%string
        ∈ config_errors abi_path env
      <-> is_unset (CONTRACT_ADDRESS env) = true).
Proof.
  split; [|split; [|split; [|split; [|split]]]].
  - unfold validate, config_errors.
    destruct (is_unset (RPC_URL env)), (is_unset (PRIVATE_KEY env)),
      (is_unset (CONTRACT_ADDRESS env)), (abi_file_exists env); simpl;
      split; try done; intros (?&?&?&?); done.
  - intros message. unfold validate.
    destruct (config_errors abi_path env); [done|]. by intros [= <-].
  - unfold config_errors.
    by destruct (is_unset (RPC_URL env)), (is_unset (PRIVATE_KEY env)),
      (is_unset (CONTRACT_ADDRESS env)), (abi_file_exists env).
  - unfold config_errors.
    destruct (is_unset (RPC_URL env)), (is_unset (PRIVATE_KEY env)),
      (is_unset (CONTRACT_ADDRESS env)), (abi_file_exists env); simpl;
      split; intros H; try done;
      first [ by repeat (apply elem_of_cons in H as [H|H]; [discriminate H|]);
                 apply elem_of_nil in H
            | repeat first [apply list_elem_of_here|apply list_elem_of_further] ].
  - unfold config_errors.
    destruct (is_unset (RPC_URL env)), (is_unset (PRIVATE_KEY env)),
      (is_unset (CONTRACT_ADDRESS env)), (abi_file_exists env); simpl;
      split; intros H; try done;
      first [ by repeat (apply elem_of_cons in H as [H|H]; [discriminate H|]);
                 apply elem_of_nil in H
            | repeat first [apply list_elem_of_here|apply list_elem_of_further] ].
  - unfold config_errors.
    destruct (is_unset (RPC_URL env)), (is_unset (PRIVATE_KEY env)),
      (is_unset (CONTRACT_ADDRESS env)), (abi_file_exists env); simpl;
      split; intros H; try done;
      first [ by repeat (apply elem_of_cons in H as [H|H]; [discriminate H|]);
                 apply elem_of_nil in H
            | repeat first [apply list_elem_of_here|apply list_elem_of_further] ].
Qed.

Section StatusFacts.
Variable float_of_decimal : Q -> float.
Variable py_round : float -> Z -> float.

Lemma get_network_info_None node :
  get_network_info float_of_decimal py_round node = None <-> info_fails node = true.
Proof.
  unfold get_network_info, info_fails.
  destruct (eth_chain_id node); simpl; [|done].
  destruct (eth_block_number node); simpl; [|done].
  destruct (eth_gas_price_now node) as [g|]; simpl; [|done].
  destruct (from_wei g gwei); simpl; done.
Qed.


Lemma run_forever_iteration_exit cfg minutes w k code :
  (run_forever_iteration float_of_decimal py_round cfg minutes w k).2 = Some code ->
  code = 1
  /\ (info_fails (world_node w) = true
      \/ raised (wait_for_next_update w minutes) = true).
Proof.
  unfold run_forever_iteration, print_stats. cbv zeta.
  destruct (_ mod 10 =? 0).
  - destruct (get_network_info _ _ _) eqn:Hinfo.
    + destruct (wait_for_next_update w minutes); [done|].
      intros [= <-]. split; [done|by right].
    + apply get_network_info_None in Hinfo. intros [= <-]. split; [done|by left].
  - destruct (wait_for_next_update w minutes); [done|].
    intros [= <-]. split; [done|by right].
Qed.

Lemma wait_for_next_update_negative w minutes :
  minutes < 0 -> raised (wait_for_next_update w minutes) = true.
Proof.
  intros Hneg. unfold wait_for_next_update.
  destruct (world_next_update w (minutes * 60)); simpl; [|done].
  destruct (Z.ltb_spec (minutes * 60) 0); [done|lia].
Qed.

(** X14: how the endless loop ends.  Whatever the price source and the chain
    client do, [run_forever] reaches its [except Exception] clause only with
    exit status 1 and only in an iteration whose statistics report could not
    query the chain id, the block number or the gas price, or whose wait for
    the next update (lines 243-247) raised; a failing balance query alone
    never ends it.  Such a failed report in an iteration where
    [total_updates] is a multiple of 10 after the cycle does end it, and so
    does a wait that raises, which is every wait when the interval is
    negative. *)
Theorem run_forever_exit_causes
    (cfg : Config) (minutes : Z) (worlds : list World) (k : Keeper) :
  (forall code,
      (run_forever float_of_decimal py_round cfg minutes worlds k).2 = Some code ->
      code = 1
      /\ exists w, w ∈ worlds
           /\ (info_fails (world_node w) = true
               \/ raised (wait_for_next_update w minutes) = true))
  /\ ((forall w, w ∈ worlds ->
        info_fails (world_node w) = false
        /\ raised (wait_for_next_update w minutes) = false) ->
      (run_forever float_of_decimal py_round cfg minutes worlds k).2 = None)
  /\ (forall w rest,
        worlds = w :: rest ->
        total_updates
          (stats (update_prices cfg (world_chain w) (world_scraped w) (world_mock w) k).1.1)
          mod 10 = 0 ->
        info_fails (world_node w) = true ->
        run_forever float_of_decimal py_round cfg minutes worlds k
        = ((update_prices cfg (world_chain w) (world_scraped w) (world_mock w) k).1.1,
           Some 1))
  /\ (forall w rest,
        worlds = w :: rest ->
        raised (wait_for_next_update w minutes) = true ->
        run_forever float_of_decimal py_round cfg minutes worlds k
        = ((update_prices cfg (world_chain w) (world_scraped w) (world_mock w) k).1.1,
           Some 1))
  /\ (forall w rest,
        worlds = w :: rest ->
        minutes < 0 ->
        run_forever float_of_decimal py_round cfg minutes worlds k
        = ((update_prices cfg (world_chain w) (world_scraped w) (world_mock w) k).1.1,
           Some 1)).
Proof.
  assert (forall ws k0 code,
            (run_forever float_of_decimal py_round cfg minutes ws k0).2 = Some code ->
            code = 1
            /\ exists w, w ∈ ws
                 /\ (info_fails (world_node w) = true
                     \/ raised (wait_for_next_update w minutes) = true)) as Hexit.
  { induction ws as [|w ws IH]; intros k0 code; [done|]. simpl.
    destruct (run_forever_iteration _ _ cfg minutes w k0) as [k' [c|]] eqn:Hit.
    - simpl. intros [= <-].
      assert ((run_forever_iteration float_of_decimal py_round cfg minutes w k0).2
              = Some c) as Hc by (by rewrite Hit).
      apply run_forever_iteration_exit in Hc as (-> & Hf).
      split; [done|]. exists w. split; [left|done].
    - intros (-> & w' & Hw' & Hf)%IH. split; [done|]. exists w'. split; [by right|done]. }
  assert (forall w rest,
            raised (wait_for_next_update w minutes) = true ->
            run_forever float_of_decimal py_round cfg minutes (w :: rest) k
            = ((update_prices cfg (world_chain w) (world_scraped w) (world_mock w) k).1.1,
               Some 1)) as Hwait.
  { intros w rest Hr. simpl. unfold run_forever_iteration. cbv zeta.
    destruct (wait_for_next_update w minutes); [done|].
    destruct (_ mod 10 =? 0); [|done]. by destruct (print_stats _ _ _). }
  split; [apply Hexit|]. split; [|split; [|split]].
  - intros Hall.
    destruct (run_forever _ _ cfg minutes worlds k).2 as [code|] eqn:Hc; [|done].
    apply Hexit in Hc as (_ & w & Hw & Hf). destruct (Hall w Hw) as [Hi Hr].
    destruct Hf; congruence.
  - intros w rest -> Hz Hf. simpl. unfold run_forever_iteration, print_stats.
    cbv zeta. rewrite Hz. simpl.
    by rewrite (proj2 (get_network_info_None (world_node w)) Hf).
  - intros w rest ->. apply Hwait.
  - intros w rest -> Hneg. by apply Hwait, wait_for_next_update_negative.
Qed.
End StatusFacts.

Lemma run_forever_exit_causes_witness :
  run_forever (fun _ => 0%float) (fun x _ => x) default_config 15
    [{| world_chain := fun _ => steady_node (30 * gwei) 1;
        world_scraped := []; world_mock := []; world_node := unreachable_status;
        world_next_update := fun _ => Ok tt; world_sleep := fun _ => Ok tt |};
     {| world_chain := fun _ => steady_node (30 * gwei) 1;
        world_scraped := [quote "A" 100]; world_mock := [];
        world_node := healthy_status;
        world_next_update := fun _ => Ok tt; world_sleep := fun _ => Ok tt |}]
    fresh_keeper
  = (fresh_keeper, Some 1)
  /\ (run_forever (fun _ => 0%float) (fun x _ => x) default_config (-1)
        [{| world_chain := fun _ => steady_node (30 * gwei) 1;
            world_scraped := [quote "A" 100]; world_mock := [];
            world_node := healthy_status;
            world_next_update := fun _ => Ok tt; world_sleep := fun _ => Ok tt |}]
        fresh_keeper).2
     = Some 1.
Proof.
  split.
  - destruct (run_forever_exit_causes (fun _ => 0%float) (fun x _ => x)
                default_config 15
                [{| world_chain := fun _ => steady_node (30 * gwei) 1;
                    world_scraped := []; world_mock := [];
                    world_node := unreachable_status;
                    world_next_update := fun _ => Ok tt;
                    world_sleep := fun _ => Ok tt |};
                 {| world_chain := fun _ => steady_node (30 * gwei) 1;
                    world_scraped := [quote "A" 100]; world_mock := [];
                    world_node := healthy_status;
                    world_next_update := fun _ => Ok tt;
                    world_sleep := fun _ => Ok tt |}]
                fresh_keeper) as (_ & _ & Hexit & _).
    exact (Hexit _ _ eq_refl eq_refl eq_refl).
  - destruct (run_forever_exit_causes (fun _ => 0%float) (fun x _ => x)
                default_config (-1)
                [{| world_chain := fun _ => steady_node (30 * gwei) 1;
                    world_scraped := [quote "A" 100]; world_mock := [];
                    world_node := healthy_status;
                    world_next_update := fun _ => Ok tt;
                    world_sleep := fun _ => Ok tt |}]
                fresh_keeper) as (_ & _ & _ & _ & Hneg).
    rewrite (Hneg _ _ eq_refl); [reflexivity|lia].
Defined.
